(** * The prompt feed: store handlers, toast queue and filtered view

    A shallow embedding of the two page components of the repository,
    [src/app/page.tsx] (module [Social]) and the variant of the page
    without accounts (module [Library]), together with the properties
    of their state handlers.

    React state is threaded explicitly: every handler is a function from
    the component state to the component state.  What a handler reads
    from its surroundings (the millisecond clock [Date.now()], the ISO
    rendering of the current time, the answer to a [confirm] dialog, the
    outcome of a [fetch]) is an explicit argument.

    Strings are sequences of 8-bit code units (the Latin-1 range of the
    runtime's UTF-16 strings); [likes] and toast ids are JavaScript
    numbers holding integers and are modelled as [Z]. *)

From Stdlib Require Import ZArith Ascii String List Bool Lia Permutation Sorted.
From stdpp Require Import base option list strings gmap pretty.

Local Open Scope string_scope.
Local Open Scope Z_scope.

(** ** Runtime string operations used by the handlers *)

Module JS.

(** Code units as numbers. *)
Definition code (c : ascii) : N := N_of_ascii c.

(** [String.prototype.toLowerCase] on one code unit of the Latin-1
    range: A-Z, and the accented capitals U+00C0-U+00DE except the
    multiplication sign U+00D7, move 32 places up. *)
Definition lower_char (c : ascii) : ascii :=
  let n := code c in
  if ((65 <=? n) && (n <=? 90))%N
     || ((192 <=? n) && (n <=? 222) && negb (n =? 215))%N
  then ascii_of_N (n + 32)
  else c.

Fixpoint toLowerCase (s : string) : string :=
  match s with
  | EmptyString => EmptyString
  | String c r => String (lower_char c) (toLowerCase r)
  end.

(** [p] is an initial segment of [s]. *)
Fixpoint startsWith (s p : string) {struct p} : bool :=
  match p with
  | EmptyString => true
  | String a p' =>
      match s with
      | EmptyString => false
      | String b s' => Ascii.eqb a b && startsWith s' p'
      end
  end.

(** [hay.includes(needle)]: [needle] occurs at some position of [hay]. *)
Fixpoint includes (hay needle : string) : bool :=
  startsWith hay needle
  || match hay with
     | EmptyString => false
     | String _ r => includes r needle
     end.

(** White space and line terminators of the language, within the
    Latin-1 range: TAB, LF, VT, FF, CR, SP and NBSP. *)
Definition is_space (c : ascii) : bool :=
  let n := code c in
  (((9 <=? n) && (n <=? 13)) || (n =? 32) || (n =? 160))%N.

Fixpoint trimStart (s : string) : string :=
  match s with
  | EmptyString => EmptyString
  | String c r => if is_space c then trimStart r else s
  end.

Fixpoint trimEnd (s : string) : string :=
  match s with
  | EmptyString => EmptyString
  | String c r =>
      match trimEnd r with
      | EmptyString => if is_space c then EmptyString else String c EmptyString
      | r' => String c r'
      end
  end.

Definition trim (s : string) : string := trimEnd (trimStart s).

(** Truthiness of a string: every string but the empty one. *)
Definition truthy (s : string) : bool :=
  match s with EmptyString => false | String _ _ => true end.

(** [a || b] where [a] may be [undefined] and both are strings. *)
Definition or_else (a : option string) (b : string) : string :=
  match a with
  | Some x => if truthy x then x else b
  | None => b
  end.

(** [a || b] with a possibly undefined right operand as well. *)
Definition or_opt (a b : option string) : option string :=
  match a with
  | Some x => if truthy x then Some x else b
  | None => b
  end.

(** [s.split(sep)[0]] for a one-unit separator: what precedes the
    first occurrence of [sep], or all of [s]. *)
Fixpoint split_head (sep : ascii) (s : string) : string :=
  match s with
  | EmptyString => EmptyString
  | String c r => if Ascii.eqb c sep then EmptyString else String c (split_head sep r)
  end.

(** [n.toString()] for an integer-valued number. *)
Definition toString (n : Z) : string := pretty n.

(** [Array.prototype.sort] with a comparator, as a stable insertion
    sort: [x] moves right past [y] exactly when the comparator puts
    it after [y]. *)
Fixpoint sort_insert {A} (cmp : A -> A -> Z) (x : A) (l : list A) : list A :=
  match l with
  | [] => [x]
  | y :: r => if 0 <? cmp x y then y :: sort_insert cmp x r else x :: l
  end.

Fixpoint sort {A} (cmp : A -> A -> Z) (l : list A) : list A :=
  match l with
  | [] => []
  | x :: r => sort_insert cmp x (sort cmp r)
  end.

End JS.

(** ** Toasts (both variants declare the same type) *)

Inductive ToastKind := success | error.

Record ToastType := mkToast {
  toast_id : Z;
  toast_message : string;
  toast_type : ToastKind
}.

#[global] Instance ToastKind_eq_dec : EqDecision ToastKind.
Proof. solve_decision. Defined.

(** The updater of [addToast]: [prev => [...prev, { id, message, type }]]. *)
Definition toasts_add (id : Z) (message : string) (type : ToastKind)
    (prev : list ToastType) : list ToastType :=
  prev ++ [mkToast id message type].

(** The updater of [removeToast]: [prev => prev.filter(t => t.id !== id)]. *)
Definition toasts_remove (id : Z) (prev : list ToastType) : list ToastType :=
  List.filter (fun t => negb (toast_id t =? id)) prev.

(** The predicate of [filtered], on the three fields it reads. *)
Definition matches (search activeTab : string) (title content category : string) : bool :=
  let matchSearch :=
    JS.includes (JS.toLowerCase (title ++ content)) (JS.toLowerCase search) in
  let matchCat := String.eqb activeTab "All" || String.eqb category activeTab in
  matchSearch && matchCat.

(** [getRelativeTime], the same in both variants.  [now] is the time
    value of [new Date()], [date] the time value of [new Date(dateString)]
    ([None] for [NaN], an unparsable string) and [locale] what
    [date.toLocaleDateString()] renders.  A [NaN] fails every
    comparison, which leaves the last [return]. *)
Definition getRelativeTime (locale : string) (now : Z) (date : option Z) : string :=
  match date with
  | None => locale
  | Some d =>
      let seconds := (now - d) / 1000 in
      if seconds <? 60 then "Just now"
      else
        let minutes := seconds / 60 in
        if minutes <? 60 then JS.toString minutes +:+ "m ago"
        else
          let hours := minutes / 60 in
          if hours <? 24 then JS.toString hours +:+ "h ago"
          else
            let days := hours / 24 in
            if days <? 7 then JS.toString days +:+ "d ago"
            else locale
  end.

(** [new Set(xs)] read back with [Array.from]: the values in the order
    of their first insertion. *)
Definition set_add (acc : list string) (x : string) : list string :=
  if existsb (String.eqb x) acc then acc else acc ++ [x].

Definition set_from (xs : list string) : list string :=
  fold_left set_add xs [].

(** The tabs, from the categories of the store in store order:
    ["All", ...Array.from(new Set(cats.filter(Boolean)))]. *)
Definition categories_of (cats : list string) : list string :=
  "All" :: set_from (List.filter JS.truthy cats).

(** ** The social feed page, [src/app/page.tsx] *)

Module Social.

Record Comment := mkComment {
  comment_id : string;
  user_name : string;
  text : string;
  comment_created_at : string
}.

Record Prompt := mkPrompt {
  prompt_id : string;
  author_id : string;
  author_name : string;
  title : string;
  content : string;
  category : string;
  created_at : string;
  likes : Z;
  liked_by_user : bool;
  comments : list Comment
}.

(** The session user handed over by the identity provider; the page
    reads [id], [email] and the optional [user_metadata]. *)
Record UserMetadata := mkMeta {
  full_name : option string;
  avatar_url : option string
}.

Record User := mkUser {
  user_id : string;
  email : option string;
  user_metadata : option UserMetadata
}.

Record Form := mkForm {
  form_title : string;
  form_content : string;
  form_category : string
}.

Definition emptyForm : Form := mkForm "" "" "".

(** The [useState] cells of [SocialPromptApp]. *)
Record State := mkState {
  user : option User;
  prompts : list Prompt;
  loading : bool;
  search : string;
  activeTab : string;
  showForm : bool;
  toasts : list ToastType;
  form : Form;
  commentInputs : gmap string string
}.

Definition initial : State :=
  mkState None [] true "" "All" false [] emptyForm ∅.

(** State setters; the functional ones take the updater. *)
Definition setUser (u : option User) (s : State) : State :=
  mkState u (prompts s) (loading s) (search s) (activeTab s) (showForm s)
          (toasts s) (form s) (commentInputs s).
Definition setPrompts (f : list Prompt -> list Prompt) (s : State) : State :=
  mkState (user s) (f (prompts s)) (loading s) (search s) (activeTab s)
          (showForm s) (toasts s) (form s) (commentInputs s).
Definition setLoading (b : bool) (s : State) : State :=
  mkState (user s) (prompts s) b (search s) (activeTab s) (showForm s)
          (toasts s) (form s) (commentInputs s).
Definition setSearch (x : string) (s : State) : State :=
  mkState (user s) (prompts s) (loading s) x (activeTab s) (showForm s)
          (toasts s) (form s) (commentInputs s).
Definition setActiveTab (x : string) (s : State) : State :=
  mkState (user s) (prompts s) (loading s) (search s) x (showForm s)
          (toasts s) (form s) (commentInputs s).
Definition setShowForm (b : bool) (s : State) : State :=
  mkState (user s) (prompts s) (loading s) (search s) (activeTab s) b
          (toasts s) (form s) (commentInputs s).
Definition setToasts (f : list ToastType -> list ToastType) (s : State) : State :=
  mkState (user s) (prompts s) (loading s) (search s) (activeTab s)
          (showForm s) (f (toasts s)) (form s) (commentInputs s).
Definition setForm (x : Form) (s : State) : State :=
  mkState (user s) (prompts s) (loading s) (search s) (activeTab s)
          (showForm s) (toasts s) x (commentInputs s).
Definition setCommentInputs (f : gmap string string -> gmap string string)
    (s : State) : State :=
  mkState (user s) (prompts s) (loading s) (search s) (activeTab s)
          (showForm s) (toasts s) (form s) (f (commentInputs s)).

(** [addToast]: the id is the clock reading [now]. *)
Definition addToast (now : Z) (message : string) (type : ToastKind)
    (s : State) : State :=
  let id := now in
  setToasts (toasts_add id message type) s.

Definition removeToast (id : Z) (s : State) : State :=
  setToasts (toasts_remove id) s.

Definition handleLogout (now : Z) (s : State) : State :=
  addToast now "Logged out successfully" success (setUser None s).

(** [user.user_metadata?.full_name]. *)
Definition meta_full_name (u : User) : option string :=
  match user_metadata u with
  | Some m => full_name m
  | None => None
  end.

(** *** Actions *)

(** [handleSubmit]; [now_id] and [iso] are the clock readings that
    build the new prompt, [now_toast] the one taken by [addToast]. *)
Definition handleSubmit (now_id : Z) (iso : string) (now_toast : Z)
    (s : State) : State :=
  match user s with
  | None => addToast now_toast "Please login to share prompts" error s
  | Some u =>
      if negb (JS.truthy (JS.trim (form_title (form s))))
         || negb (JS.truthy (JS.trim (form_content (form s))))
      then s
      else
        let newPrompt :=
          {| prompt_id := JS.toString now_id;
             author_id := user_id u;
             author_name :=
               JS.or_else
                 (JS.or_opt (meta_full_name u)
                            (JS.split_head "@"%char <$> email u))
                 "Anonymous";
             title := form_title (form s);
             content := form_content (form s);
             category := form_category (form s);
             created_at := iso;
             likes := 0;
             liked_by_user := false;
             comments := [] |} in
        addToast now_toast "Prompt Shared!" success
          (setShowForm false
             (setForm emptyForm
                (setPrompts (fun _ => newPrompt :: prompts s) s)))
  end.

(** [handleDelete]; [confirmed] is the answer to the dialog. *)
Definition handleDelete (confirmed : bool) (now : Z) (id : string)
    (s : State) : State :=
  if negb confirmed then s
  else
    addToast now "Prompt deleted" success
      (setPrompts
         (List.filter (fun p => negb (String.eqb (prompt_id p) id))) s).

(** The callback mapped over the store by [handleLike]. *)
Definition like_entity (id : string) (p : Prompt) : Prompt :=
  if String.eqb (prompt_id p) id then
    let isLiked := negb (liked_by_user p) in
    {| prompt_id := prompt_id p;
       author_id := author_id p;
       author_name := author_name p;
       title := title p;
       content := content p;
       category := category p;
       created_at := created_at p;
       likes := if isLiked then likes p + 1 else likes p - 1;
       liked_by_user := isLiked;
       comments := comments p |}
  else p.

Definition handleLike (now : Z) (id : string) (s : State) : State :=
  match user s with
  | None => addToast now "Login to like posts" error s
  | Some _ => setPrompts (List.map (like_entity id)) s
  end.

(** The callback mapped over the store by [handleCommentSubmit]. *)
Definition comment_entity (id : string) (newComment : Comment)
    (p : Prompt) : Prompt :=
  if String.eqb (prompt_id p) id then
    {| prompt_id := prompt_id p;
       author_id := author_id p;
       author_name := author_name p;
       title := title p;
       content := content p;
       category := category p;
       created_at := created_at p;
       likes := likes p;
       liked_by_user := liked_by_user p;
       comments := comments p ++ [newComment] |}
  else p.

(** [!text?.trim()] for the possibly undefined input of a card. *)
Definition blank_input (t : option string) : bool :=
  match t with
  | Some x => negb (JS.truthy (JS.trim x))
  | None => true
  end.

Definition handleCommentSubmit (now_toast now_id : Z) (iso : string)
    (id : string) (s : State) : State :=
  match user s with
  | None => addToast now_toast "Login to comment" error s
  | Some u =>
      let text := commentInputs s !! id in
      if blank_input text then s
      else
        let newComment :=
          {| comment_id := JS.toString now_id;
             user_name := JS.or_else (meta_full_name u) "User";
             text := default "" text;
             comment_created_at := iso |} in
        setCommentInputs (fun prev => <[id := ""]> prev)
          (setPrompts (List.map (comment_entity id newComment)) s)
  end.

Definition handleCopy (now : Z) (s : State) : State :=
  addToast now "Copied to clipboard" success s.

(** *** Derived view *)

Definition filtered (s : State) : list Prompt :=
  List.filter
    (fun p => matches (search s) (activeTab s) (title p) (content p) (category p))
    (prompts s).

(** [user && p.author_id === user.id]: the guard around the delete
    button of a card. *)
Definition delete_offered (s : State) (p : Prompt) : bool :=
  match user s with
  | Some u => String.eqb (author_id p) (user_id u)
  | None => false
  end.

(** The cards that carry a delete button: the feed renders
    [filtered] once loading is over, and each button calls
    [handleDelete(p.id)]. *)
Definition delete_controls (s : State) : list Prompt :=
  if loading s then [] else List.filter (delete_offered s) (filtered s).

(** *** Data loading *)

(** A row of the list response, typed [any] by the page: the fields
    of the stored prompt, and the social fields that may be absent. *)
Record RawPrompt := mkRaw {
  raw_id : string;
  raw_title : string;
  raw_content : string;
  raw_category : string;
  raw_created_at : string;
  raw_likes : option Z;
  raw_comments : option (list Comment);
  raw_author_id : option string;
  raw_author_name : option string
}.

(** What [fetch] followed by [res.json()] and [data.map] comes to:
    an array of rows, or an exception (transport failure, a body that
    is not JSON, a body that is not an array). *)
Inductive LoadResult :=
| LoadOk (data : list RawPrompt)
| LoadThrows.

(** [n || 0] for a possibly undefined number. *)
Definition num_or_zero (n : option Z) : Z :=
  match n with
  | Some x => if x =? 0 then 0 else x
  | None => 0
  end.

(** The callback of [data.map] in [loadPrompts]. *)
Definition socialize (p : RawPrompt) : Prompt :=
  {| prompt_id := raw_id p;
     author_id := JS.or_else (raw_author_id p) "other_user";
     author_name := JS.or_else (raw_author_name p) "Anonymous";
     title := raw_title p;
     content := raw_content p;
     category := raw_category p;
     created_at := raw_created_at p;
     likes := num_or_zero (raw_likes p);
     liked_by_user := false;
     comments := default [] (raw_comments p) |}.

(** The fallback feed of the [catch] branch; [u] is the user the
    callback closed over, [iso1] and [iso2] the two clock readings. *)
Definition mockData (u : option User) (iso1 iso2 : string) : list Prompt :=
  [ {| prompt_id := "1"; author_id := "other_user"; author_name := "DesignGuru";
       title := "Midjourney Photorealism"; content := "Hyper realistic photo of...";
       category := "Art"; created_at := iso1;
       likes := 45; liked_by_user := false; comments := [] |};
    {| prompt_id := "2";
       author_id := JS.or_else (user_id <$> u) "demo_id";
       author_name := JS.or_else (u ≫= meta_full_name) "You";
       title := "Python Debugger"; content := "Act as a python expert...";
       category := "Code"; created_at := iso2;
       likes := 12; liked_by_user := true; comments := [] |} ].

Section Runtime.

(** [new Date(s).getTime()]; [None] stands for [NaN], the time
    value of a string that is not a date. *)
Variable getTime : string -> option Z.

(** The comparator of [loadPrompts]; a [NaN] difference counts as
    zero for [sort]. *)
Definition newest_first (a b : Prompt) : Z :=
  match getTime (created_at b), getTime (created_at a) with
  | Some tb, Some ta => tb - ta
  | _, _ => 0
  end.

Definition loadPrompts_begin (s : State) : State := setLoading true s.

(** The rest of [loadPrompts], once the request has settled. *)
Definition loadPrompts_settle (u : option User) (iso1 iso2 : string)
    (res : LoadResult) (s : State) : State :=
  let loaded :=
    match res with
    | LoadOk data => JS.sort newest_first (List.map socialize data)
    | LoadThrows => mockData u iso1 iso2
    end in
  setLoading false (setPrompts (fun _ => loaded) s).

(** *** The page as a transition system *)

Inductive Event :=
| EvAuth (u : option User)
| EvLogout (now : Z)
| EvLoadBegin
| EvLoadSettle (u : option User) (iso1 iso2 : string) (res : LoadResult)
| EvSubmit (now_id : Z) (iso : string) (now_toast : Z)
| EvDelete (confirmed : bool) (now : Z) (id : string)
| EvLike (now : Z) (id : string)
| EvComment (now_toast now_id : Z) (iso : string) (id : string)
| EvCopy (now : Z)
| EvRemoveToast (id : Z)
| EvSetForm (f : Form)
| EvSetCommentInput (id value : string)
| EvSetSearch (value : string)
| EvSetActiveTab (cat : string)
| EvSetShowForm (b : bool).

Definition step (s : State) (e : Event) : State :=
  match e with
  | EvAuth u => setUser u s
  | EvLogout now => handleLogout now s
  | EvLoadBegin => loadPrompts_begin s
  | EvLoadSettle u iso1 iso2 res => loadPrompts_settle u iso1 iso2 res s
  | EvSubmit now_id iso now_toast => handleSubmit now_id iso now_toast s
  | EvDelete confirmed now id => handleDelete confirmed now id s
  | EvLike now id => handleLike now id s
  | EvComment now_toast now_id iso id => handleCommentSubmit now_toast now_id iso id s
  | EvCopy now => handleCopy now s
  | EvRemoveToast id => removeToast id s
  | EvSetForm f => setForm f s
  | EvSetCommentInput id value =>
      setCommentInputs (fun prev => <[id := value]> prev) s
  | EvSetSearch value => setSearch value s
  | EvSetActiveTab cat => setActiveTab cat s
  | EvSetShowForm b => setShowForm b s
  end.

Definition run (es : list Event) : State := fold_left step es initial.

End Runtime.

(** A list response whose rows respect the data model: a [likes]
    field, when present, is not negative. *)
Definition rows_ok (data : list RawPrompt) : Prop :=
  Forall (fun r => match raw_likes r with Some n => 0 <= n | None => True end) data.

Definition event_ok (e : Event) : Prop :=
  match e with
  | EvLoadSettle _ _ _ (LoadOk data) => rows_ok data
  | _ => True
  end.

(** The tabs of the feed. *)
Definition categories (s : State) : list string :=
  categories_of (List.map category (prompts s)).

(** The two counters of the profile header, rendered for a signed-in
    user: the number of own posts and the likes they received. *)
Definition posts_count (u : User) (s : State) : nat :=
  length (List.filter (fun p => String.eqb (author_id p) (user_id u)) (prompts s)).

Definition likes_received (u : User) (s : State) : Z :=
  fold_left
    (fun acc p => if String.eqb (author_id p) (user_id u) then acc + likes p else acc)
    (prompts s) 0.

End Social.

(** ** The library page, the variant of the feed without accounts *)

Module Library.

Record Prompt := mkPrompt {
  prompt_id : string;
  title : string;
  content : string;
  category : string;
  created_at : string
}.

Record Form := mkForm {
  form_title : string;
  form_content : string;
  form_category : string
}.

Definition emptyForm : Form := mkForm "" "" "".

(** The [useState] cells of [PromptLibrary]. *)
Record State := mkState {
  prompts : list Prompt;
  loading : bool;
  isSubmitting : bool;
  search : string;
  activeTab : string;
  form : Form;
  showForm : bool;
  toasts : list ToastType
}.

Definition initial : State :=
  mkState [] true false "" "All" emptyForm false [].

Definition setPrompts (f : list Prompt -> list Prompt) (s : State) : State :=
  mkState (f (prompts s)) (loading s) (isSubmitting s) (search s) (activeTab s)
          (form s) (showForm s) (toasts s).
Definition setLoading (b : bool) (s : State) : State :=
  mkState (prompts s) b (isSubmitting s) (search s) (activeTab s)
          (form s) (showForm s) (toasts s).
Definition setIsSubmitting (b : bool) (s : State) : State :=
  mkState (prompts s) (loading s) b (search s) (activeTab s)
          (form s) (showForm s) (toasts s).
Definition setSearch (x : string) (s : State) : State :=
  mkState (prompts s) (loading s) (isSubmitting s) x (activeTab s)
          (form s) (showForm s) (toasts s).
Definition setActiveTab (x : string) (s : State) : State :=
  mkState (prompts s) (loading s) (isSubmitting s) (search s) x
          (form s) (showForm s) (toasts s).
Definition setForm (x : Form) (s : State) : State :=
  mkState (prompts s) (loading s) (isSubmitting s) (search s) (activeTab s)
          x (showForm s) (toasts s).
Definition setShowForm (b : bool) (s : State) : State :=
  mkState (prompts s) (loading s) (isSubmitting s) (search s) (activeTab s)
          (form s) b (toasts s).
Definition setToasts (f : list ToastType -> list ToastType) (s : State) : State :=
  mkState (prompts s) (loading s) (isSubmitting s) (search s) (activeTab s)
          (form s) (showForm s) (f (toasts s)).

Definition addToast (now : Z) (message : string) (type : ToastKind)
    (s : State) : State :=
  let id := now in
  setToasts (toasts_add id message type) s.

Definition removeToast (id : Z) (s : State) : State :=
  setToasts (toasts_remove id) s.

(** The outcome of an awaited request. *)
Inductive Outcome := Resolved | Rejected.

Inductive LoadResult :=
| LoadOk (data : list Prompt)
| LoadThrows.

Section Runtime.

Variable getTime : string -> option Z.

Definition newest_first (a b : Prompt) : Z :=
  match getTime (created_at b), getTime (created_at a) with
  | Some tb, Some ta => tb - ta
  | _, _ => 0
  end.

Definition loadPrompts_begin (silent : bool) (s : State) : State :=
  if negb silent then setLoading true s else s.

Definition loadPrompts_settle (silent : bool) (now : Z) (res : LoadResult)
    (s : State) : State :=
  let s1 :=
    match res with
    | LoadOk data => setPrompts (fun _ => JS.sort newest_first data) s
    | LoadThrows => addToast now "Failed to load prompts" error s
    end in
  if negb silent then setLoading false s1 else s1.

End Runtime.

(** [handleSubmit] up to its first [await]. *)
Definition handleSubmit (now : Z) (s : State) : State :=
  if negb (JS.truthy (JS.trim (form_title (form s))))
     || negb (JS.truthy (JS.trim (form_content (form s))))
  then addToast now "Title and content are required" error s
  else setIsSubmitting true s.

(** [handleSubmit] after the POST request has settled, up to the
    silent reload it awaits next. *)
Definition handleSubmit_posted (r : Outcome) (now : Z) (s : State) : State :=
  match r with
  | Resolved =>
      addToast now "Prompt saved to library" success
        (setShowForm false (setForm emptyForm s))
  | Rejected =>
      setIsSubmitting false (addToast now "Failed to save prompt" error s)
  end.

(** [handleDelete] up to its [await]: the optimistic update. *)
Definition handleDelete (confirmed : bool) (id : string) (s : State) : State :=
  if negb confirmed then s
  else
    setPrompts (List.filter (fun p => negb (String.eqb (prompt_id p) id))) s.

(** [handleDelete] after the DELETE request has settled; a rejection
    is followed by a silent reload. *)
Definition handleDelete_settled (r : Outcome) (now : Z) (s : State) : State :=
  match r with
  | Resolved => addToast now "Prompt deleted" success s
  | Rejected => addToast now "Could not delete prompt" error s
  end.

Definition filtered (s : State) : list Prompt :=
  List.filter
    (fun p => matches (search s) (activeTab s) (title p) (content p) (category p))
    (prompts s).

Definition categories (s : State) : list string :=
  categories_of (List.map category (prompts s)).

End Library.

(** ** Vocabulary of the specification *)

(** [selects P l l']: [l'] is the subsequence of [l] made of exactly the
    elements that satisfy [P], in the order of [l]. *)
Inductive selects {A} (P : A -> Prop) : list A -> list A -> Prop :=
| selects_nil : selects P [] []
| selects_keep x l l' : P x -> selects P l l' -> selects P (x :: l) (x :: l')
| selects_drop x l l' : ~ P x -> selects P l l' -> selects P (x :: l) l'.

(** Two strings that differ at most in the case of their letters. *)
Inductive ci_eq : string -> string -> Prop :=
| ci_eq_nil : ci_eq "" ""
| ci_eq_cons c d a b :
    JS.lower_char c = JS.lower_char d -> ci_eq a b ->
    ci_eq (String c a) (String d b).

(** [needle] occurs in [hay] up to the case of letters. *)
Definition ci_contains (hay needle : string) : Prop :=
  exists pre mid post, hay = pre +:+ mid +:+ post /\ ci_eq mid needle.

(** A string with no unit other than white space (the empty string
    included). *)
Fixpoint whitespace_only (s : string) : Prop :=
  match s with
  | EmptyString => True
  | String c r => JS.is_space c = true /\ whitespace_only r
  end.

(** The net number of like transitions along the successive values of
    [liked_by_user], starting from [prev]: a change to [true] counts
    for one, a change to [false] for minus one. *)
Fixpoint net_like_transitions (prev : bool) (obs : list bool) : Z :=
  match obs with
  | [] => 0
  | b :: r =>
      (if negb prev && b then 1 else if prev && negb b then -1 else 0)
      + net_like_transitions b r
  end.

(** The entity at position [i] of the store, as a state observation. *)
Definition liked_at (i : nat) (s : Social.State) : bool :=
  from_option Social.liked_by_user false (Social.prompts s !! i).

Definition likes_at (i : nat) (s : Social.State) : Z :=
  from_option Social.likes 0 (Social.prompts s !! i).

(** The states after each call of a sequence of [handleLike id], one
    clock reading per call. *)
Fixpoint like_states (id : string) (nows : list Z) (s : Social.State)
    : list Social.State :=
  match nows with
  | [] => []
  | t :: r =>
      let s1 := Social.handleLike t id s in
      s1 :: like_states id r s1
  end.

Definition like_final (id : string) (nows : list Z) (s : Social.State)
    : Social.State :=
  fold_left (fun st t => Social.handleLike t id st) nows s.

(** The acceptance condition of the like invariant: a liked entity has
    at least one like. *)
Definition likes_ok (p : Social.Prompt) : Prop :=
  0 <= Social.likes p /\ (Social.liked_by_user p = true -> 1 <= Social.likes p).

(** Two creation dates in feed order: both parse and the first is not
    older than the second. *)
Definition not_older (getTime : string -> option Z) (a b : string) : Prop :=
  match getTime a, getTime b with
  | Some ta, Some tb => tb <= ta
  | _, _ => False
  end.

(** Two dates that the comparator of [loadPrompts] leaves in place:
    the second is not newer than the first, or one of them does not
    parse. *)
Definition keeps_place (getTime : string -> option Z) (a b : string) : Prop :=
  match getTime b, getTime a with
  | Some tb, Some ta => tb <= ta
  | _, _ => True
  end.

(** What the specification asks of an entity shown by the filter. *)
Definition spec_match (search activeTab : string)
    (title content category : string) : Prop :=
  ci_contains (title +:+ content) search
  /\ (activeTab = "All" \/ category = activeTab).

(** ** Strings *)

Lemma startsWith_spec s p :
  JS.startsWith s p = true <-> exists post, s = p +:+ post.
Proof.
  revert s; induction p as [|a p IH]; intros s; simpl.
  - split; [intros _; exists s; reflexivity | reflexivity].
  - destruct s as [|b s].
    + split; [discriminate | intros [post H]; discriminate].
    + rewrite andb_true_iff, Ascii.eqb_eq, IH. split.
      * intros [-> [post ->]]. exists post. reflexivity.
      * intros [post H]. injection H as -> ->. split; [reflexivity | eauto].
Qed.

Lemma includes_spec hay needle :
  JS.includes hay needle = true <->
  exists pre post, hay = pre +:+ needle +:+ post.
Proof.
  induction hay as [|c hay IH]; simpl.
  - rewrite orb_false_r, startsWith_spec. split.
    + intros [post H]. exists "", post. exact H.
    + intros [pre [post H]]. destruct pre; [|discriminate]. exists post. exact H.
  - rewrite orb_true_iff, startsWith_spec, IH. split.
    + intros [[post H] | [pre [post H]]].
      * exists "", post. exact H.
      * exists (String c pre), post. simpl. rewrite H. reflexivity.
    + intros [pre [post H]]. destruct pre as [|d pre]; simpl in H.
      * left. exists post. exact H.
      * right. injection H as _ H. exists pre, post. exact H.
Qed.

Lemma toLowerCase_app a b :
  JS.toLowerCase (a +:+ b) = JS.toLowerCase a +:+ JS.toLowerCase b.
Proof. induction a as [|c a IH]; simpl; [reflexivity | rewrite IH; reflexivity]. Qed.

Lemma toLowerCase_split h a b :
  JS.toLowerCase h = a +:+ b ->
  exists h1 h2, h = h1 +:+ h2 /\ JS.toLowerCase h1 = a /\ JS.toLowerCase h2 = b.
Proof.
  revert h; induction a as [|c a IH]; intros h H; simpl in H.
  - exists "", h. auto.
  - destruct h as [|d h]; simpl in H; [discriminate|].
    injection H as Hc H. destruct (IH _ H) as (h1 & h2 & -> & H1 & H2).
    exists (String d h1), h2. simpl. rewrite Hc, H1. auto.
Qed.

Lemma ci_eq_lower a b : ci_eq a b <-> JS.toLowerCase a = JS.toLowerCase b.
Proof.
  split.
  - induction 1; simpl; congruence.
  - revert b; induction a as [|c a IH]; intros [|d b] H; simpl in H;
      try discriminate; [constructor|].
    injection H as Hc H. constructor; auto.
Qed.

Lemma includes_lower_spec hay needle :
  JS.includes (JS.toLowerCase hay) (JS.toLowerCase needle) = true <->
  ci_contains hay needle.
Proof.
  rewrite includes_spec. unfold ci_contains. split.
  - intros (a & b & H).
    destruct (toLowerCase_split _ _ _ H) as (pre & rest & -> & <- & H2).
    destruct (toLowerCase_split _ _ _ H2) as (mid & post & -> & H3 & <-).
    exists pre, mid, post. split; [reflexivity | apply ci_eq_lower; exact H3].
  - intros (pre & mid & post & -> & H). apply ci_eq_lower in H.
    exists (JS.toLowerCase pre), (JS.toLowerCase post).
    rewrite !toLowerCase_app, H. reflexivity.
Qed.

Lemma includes_empty hay : JS.includes hay "" = true.
Proof. destruct hay; reflexivity. Qed.

Lemma trimEnd_empty s : JS.trimEnd s = "" <-> whitespace_only s.
Proof.
  induction s as [|c s IH]; simpl; [tauto|].
  destruct (JS.trimEnd s) eqn:E.
  - destruct (JS.is_space c); split; try discriminate; try tauto.
    intros [H _]; discriminate.
  - split; [discriminate|]. intros [_ H]. apply IH in H. discriminate.
Qed.

Lemma trim_empty s : JS.trim s = "" <-> whitespace_only s.
Proof.
  unfold JS.trim. induction s as [|c s IH]; simpl; [tauto|].
  destruct (JS.is_space c) eqn:E.
  - rewrite IH. tauto.
  - rewrite trimEnd_empty. simpl. rewrite E. split; intros [H _]; discriminate.
Qed.

Lemma not_truthy_trim s :
  negb (JS.truthy (JS.trim s)) = true <-> whitespace_only s.
Proof.
  rewrite <- trim_empty. destruct (JS.trim s); simpl; split; congruence.
Qed.

(** ** Lists *)

Lemma filter_selects {A} (f : A -> bool) (P : A -> Prop) l :
  (forall x, f x = true <-> P x) -> selects P l (List.filter f l).
Proof.
  intros H. induction l as [|x l IH]; simpl; [constructor|].
  destruct (f x) eqn:E.
  - apply selects_keep; [apply H; exact E | exact IH].
  - apply selects_drop; [rewrite <- H; congruence | exact IH].
Qed.

Lemma selects_unique {A} (P : A -> Prop) l l1 l2 :
  selects P l l1 -> selects P l l2 -> l1 = l2.
Proof.
  intros H1; revert l2; induction H1; intros l2 H2; inversion H2; subst;
    try contradiction; try reflexivity; [f_equal|]; auto.
Qed.

Lemma filter_all {A} (f : A -> bool) l :
  (forall x, In x l -> f x = true) -> List.filter f l = l.
Proof.
  induction l as [|x l IH]; simpl; intros H; [reflexivity|].
  rewrite H by auto. f_equal. apply IH. auto.
Qed.

Lemma matches_spec search activeTab title content category :
  matches search activeTab title content category = true <->
  spec_match search activeTab title content category.
Proof.
  unfold matches, spec_match.
  rewrite andb_true_iff, orb_true_iff, includes_lower_spec, !String.eqb_eq.
  reflexivity.
Qed.

Lemma matches_identity title content category :
  matches "" "All" title content category = true.
Proof. unfold matches. simpl JS.toLowerCase at 2. rewrite includes_empty. reflexivity. Qed.

(** ** The filtered view *)

(** C7. In both variants of the page, [filtered] is the subsequence of
    the store made of exactly the entities whose title followed by
    content contains the search text up to letter case and whose
    category is the active one (or the active one is "All"), in store
    order; with an empty search text and the "All" tab it is the whole
    store. *)
Theorem filtered_is_spec_filter :
  (forall s : Social.State,
     selects
       (fun p => spec_match (Social.search s) (Social.activeTab s)
                   (Social.title p) (Social.content p) (Social.category p))
       (Social.prompts s) (Social.filtered s)
     /\ Social.filtered (Social.setActiveTab "All" (Social.setSearch "" s))
        = Social.prompts s)
  /\ (forall s : Library.State,
        selects
          (fun p => spec_match (Library.search s) (Library.activeTab s)
                      (Library.title p) (Library.content p) (Library.category p))
          (Library.prompts s) (Library.filtered s)
        /\ Library.filtered (Library.setActiveTab "All" (Library.setSearch "" s))
           = Library.prompts s).
Proof.
  split; intros s; split.
  - apply filter_selects. intros p. apply matches_spec.
  - unfold Social.filtered. simpl. apply filter_all.
    intros p _. apply matches_identity.
  - apply filter_selects. intros p. apply matches_spec.
  - unfold Library.filtered. simpl. apply filter_all.
    intros p _. apply matches_identity.
Qed.

(** The category scenario of the specification, on the social page. *)
Example filtered_by_category :
  let art := Social.mkPrompt "1" "a" "A" "t1" "c1" "Art" "d" 0 false [] in
  let code := Social.mkPrompt "2" "b" "B" "t2" "c2" "Code" "d" 0 false [] in
  Social.filtered
    (Social.setActiveTab "Code"
       (Social.setPrompts (fun _ => [art; code]) Social.initial))
  = [code].
Proof. reflexivity. Qed.

(** ** The toast queue *)

Lemma toasts_remove_twice id q :
  toasts_remove id (toasts_remove id q) = toasts_remove id q.
Proof.
  unfold toasts_remove. induction q as [|t q IH]; simpl; [reflexivity|].
  destruct (negb (toast_id t =? id)) eqn:E; simpl; rewrite ?E, IH; reflexivity.
Qed.

Lemma toasts_remove_absent id q :
  Forall (fun t => toast_id t <> id) q -> toasts_remove id q = q.
Proof.
  intros H. apply filter_all. intros t Ht.
  rewrite Forall_forall in H. apply negb_true_iff, Z.eqb_neq, H.
  apply list_elem_of_In. exact Ht.
Qed.

(** C6. [removeToast] is idempotent in both variants: removing the same
    id a second time changes nothing, and removing an id that no toast
    of the queue carries leaves the whole state as it was. *)
Theorem removeToast_idempotent (id : Z) :
  (forall s : Social.State,
     Social.removeToast id (Social.removeToast id s) = Social.removeToast id s
     /\ (Forall (fun t => toast_id t <> id) (Social.toasts s) ->
         Social.removeToast id s = s))
  /\ (forall s : Library.State,
        Library.removeToast id (Library.removeToast id s) = Library.removeToast id s
        /\ (Forall (fun t => toast_id t <> id) (Library.toasts s) ->
            Library.removeToast id s = s)).
Proof.
  split; intros s; split.
  - unfold Social.removeToast, Social.setToasts. simpl.
    rewrite toasts_remove_twice. reflexivity.
  - intros H. destruct s. unfold Social.removeToast, Social.setToasts. simpl in *.
    rewrite toasts_remove_absent by exact H. reflexivity.
  - unfold Library.removeToast, Library.setToasts. simpl.
    rewrite toasts_remove_twice. reflexivity.
  - intros H. destruct s. unfold Library.removeToast, Library.setToasts. simpl in *.
    rewrite toasts_remove_absent by exact H. reflexivity.
Qed.

Lemma removeToast_idempotent_witness :
  let s := Social.addToast 7 "saved" success Social.initial in
  Social.removeToast 8 s = s.
Proof.
  intros s. apply (proj2 (proj1 (removeToast_idempotent 8) s)).
  repeat constructor. simpl. lia.
Defined.

(** C5. [addToast] puts the new toast at the end of the queue, in both
    variants, but its id is the clock reading alone: two calls that
    read the same millisecond leave two toasts with the same id in the
    queue, whatever the queue held before. *)
Theorem addToast_same_tick_collision (now : Z) (m1 m2 : string) (k1 k2 : ToastKind) :
  (forall s : Social.State,
     Social.toasts (Social.addToast now m1 k1 s)
     = (Social.toasts s ++ [mkToast now m1 k1])%list
     /\ ~ NoDup (List.map toast_id
                   (Social.toasts
                      (Social.addToast now m2 k2 (Social.addToast now m1 k1 s)))))
  /\ (forall s : Library.State,
        Library.toasts (Library.addToast now m1 k1 s)
        = (Library.toasts s ++ [mkToast now m1 k1])%list
        /\ ~ NoDup (List.map toast_id
                      (Library.toasts
                         (Library.addToast now m2 k2 (Library.addToast now m1 k1 s))))).
Proof.
  assert (Hdup : forall q : list ToastType,
             ~ NoDup (List.map toast_id ((q ++ [mkToast now m1 k1]) ++ [mkToast now m2 k2])%list)).
  { intros q H. rewrite <- app_assoc, List.map_app in H. simpl in H.
    apply NoDup_app in H as (_ & _ & H).
    apply NoDup_cons in H as [H _]. apply H. left. }
  split; intros s; (split; [reflexivity | apply Hdup]).
Qed.

(** ** The authentication gate *)

(** C4. With no signed-in user, [handleSubmit], [handleLike] and
    [handleCommentSubmit] leave the store as it is and append exactly
    one toast of kind [error] to the queue; nothing else of the state
    changes. *)
Theorem anonymous_commands_rejected (s : Social.State) :
  Social.user s = None ->
  (forall now_id iso now,
     let s' := Social.handleSubmit now_id iso now s in
     Social.prompts s' = Social.prompts s
     /\ Social.toasts s'
        = (Social.toasts s ++ [mkToast now "Please login to share prompts" error])%list
     /\ s' = Social.setToasts (fun _ => Social.toasts s') s)
  /\ (forall now id,
        let s' := Social.handleLike now id s in
        Social.prompts s' = Social.prompts s
        /\ Social.toasts s'
           = (Social.toasts s ++ [mkToast now "Login to like posts" error])%list
        /\ s' = Social.setToasts (fun _ => Social.toasts s') s)
  /\ (forall now now_id iso id,
        let s' := Social.handleCommentSubmit now now_id iso id s in
        Social.prompts s' = Social.prompts s
        /\ Social.toasts s'
           = (Social.toasts s ++ [mkToast now "Login to comment" error])%list
        /\ s' = Social.setToasts (fun _ => Social.toasts s') s).
Proof.
  intros H. repeat split.
  all: unfold Social.handleSubmit, Social.handleLike, Social.handleCommentSubmit;
    rewrite H; reflexivity.
Qed.

Lemma anonymous_commands_rejected_witness :
  Social.prompts (Social.handleLike 42 "1" Social.initial) = []
  /\ Social.toasts (Social.handleLike 42 "1" Social.initial)
     = [mkToast 42 "Login to like posts" error].
Proof.
  pose proof (anonymous_commands_rejected Social.initial eq_refl) as (_ & H & _).
  destruct (H 42 "1") as (H1 & H2 & _). split; [exact H1 | exact H2].
Defined.

(** ** Deleting *)

Section RemoveByKey.

Context {A : Type} (key : A -> string) (id : string).

Lemma remove_key_selects l :
  selects (fun p => key p <> id) l
    (List.filter (fun p => negb (String.eqb (key p) id)) l).
Proof.
  apply filter_selects. intros p. rewrite negb_true_iff. apply String.eqb_neq.
Qed.

Lemma remove_key_absent l :
  Forall (fun p => key p <> id) l ->
  List.filter (fun p => negb (String.eqb (key p) id)) l = l.
Proof.
  intros H. apply filter_all. intros p Hp.
  rewrite negb_true_iff. apply String.eqb_neq.
  rewrite Forall_forall in H. apply H, list_elem_of_In, Hp.
Qed.

Lemma remove_key_twice l :
  List.filter (fun p => negb (String.eqb (key p) id))
    (List.filter (fun p => negb (String.eqb (key p) id)) l)
  = List.filter (fun p => negb (String.eqb (key p) id)) l.
Proof.
  apply filter_all. intros p Hp. apply filter_In in Hp. tauto.
Qed.

Lemma remove_key_unique l i p :
  NoDup (List.map key l) -> l !! i = Some p -> key p = id ->
  List.filter (fun p => negb (String.eqb (key p) id)) l
  = (take i l ++ drop (S i) l)%list.
Proof.
  revert i. induction l as [|x l IH]; intros i Hnd Hi Hk; [discriminate|].
  simpl in Hnd. apply NoDup_cons in Hnd as [Hx Hnd].
  destruct i as [|i]; simpl in Hi |- *.
  - injection Hi as ->. rewrite Hk, String.eqb_refl. simpl.
    rewrite drop_0. apply remove_key_absent.
    apply Forall_forall. intros q Hq Hq'. apply Hx.
    rewrite Hk, <- Hq'. apply list_elem_of_In, in_map, list_elem_of_In, Hq.
  - assert (E : String.eqb (key x) id = false).
    { apply String.eqb_neq. intros Hx'. apply Hx. rewrite Hx', <- Hk.
      apply list_elem_of_In, in_map, list_elem_of_In.
      eapply list_elem_of_lookup_2, Hi. }
    rewrite E. simpl. f_equal. apply IH; assumption.
Qed.

End RemoveByKey.

(** C9. Once confirmed, [handleDelete] of either variant keeps exactly
    the entities whose id differs from the given one, in their order;
    in a store without that id nothing changes; in a store whose ids
    are all different the entity carrying the id is the one entity
    taken out; a second deletion of the same id changes nothing more.
    A declined confirmation leaves the state alone. *)
Theorem handleDelete_removes_by_id (id : string) :
  (forall now (s : Social.State),
     let s' := Social.handleDelete true now id s in
     selects (fun p => Social.prompt_id p <> id) (Social.prompts s) (Social.prompts s')
     /\ (Forall (fun p => Social.prompt_id p <> id) (Social.prompts s) ->
         Social.prompts s' = Social.prompts s)
     /\ (forall i p,
           NoDup (List.map Social.prompt_id (Social.prompts s)) ->
           Social.prompts s !! i = Some p -> Social.prompt_id p = id ->
           Social.prompts s'
           = (take i (Social.prompts s) ++ drop (S i) (Social.prompts s))%list)
     /\ (forall now2,
           Social.prompts (Social.handleDelete true now2 id s')
           = Social.prompts s')
     /\ Social.handleDelete false now id s = s)
  /\ (forall (s : Library.State),
        let s' := Library.handleDelete true id s in
        selects (fun p => Library.prompt_id p <> id) (Library.prompts s) (Library.prompts s')
        /\ (Forall (fun p => Library.prompt_id p <> id) (Library.prompts s) ->
            Library.prompts s' = Library.prompts s)
        /\ (forall i p,
              NoDup (List.map Library.prompt_id (Library.prompts s)) ->
              Library.prompts s !! i = Some p -> Library.prompt_id p = id ->
              Library.prompts s'
              = (take i (Library.prompts s) ++ drop (S i) (Library.prompts s))%list)
        /\ Library.prompts (Library.handleDelete true id s') = Library.prompts s'
        /\ Library.handleDelete false id s = s).
Proof.
  split; intros; subst s'; simpl; repeat split.
  - apply remove_key_selects.
  - apply remove_key_absent.
  - apply remove_key_unique.
  - intros _. apply remove_key_twice.
  - apply remove_key_selects.
  - apply remove_key_absent.
  - apply remove_key_unique.
  - apply remove_key_twice.
Qed.

Lemma handleDelete_removes_by_id_witness :
  let a := Library.mkPrompt "1" "t1" "c1" "Art" "d1" in
  let b := Library.mkPrompt "2" "t2" "c2" "Code" "d2" in
  let s := Library.setPrompts (fun _ => [a; b]) Library.initial in
  Library.prompts (Library.handleDelete true "nonexistent" s) = [a; b]
  /\ Library.prompts (Library.handleDelete true "1" s) = [b].
Proof.
  intros a b s.
  destruct (proj2 (handleDelete_removes_by_id "nonexistent") s) as (_ & H1 & _).
  destruct (proj2 (handleDelete_removes_by_id "1") s) as (_ & _ & H2 & _).
  split.
  - apply H1. repeat (constructor; [simpl; congruence|]). constructor.
  - apply (H2 0%nat a); [|reflexivity|reflexivity].
    apply (bool_decide_unpack _). vm_compute. exact I.
Defined.

(** ** Likes and comments *)

Lemma lookup_map {A B} (f : A -> B) (l : list A) (i : nat) :
  List.map f l !! i = f <$> l !! i.
Proof.
  revert i; induction l as [|x l IH]; intros [|i]; simpl; try reflexivity.
  apply IH.
Qed.

Lemma like_entity_other id p :
  Social.prompt_id p <> id -> Social.like_entity id p = p.
Proof.
  intros H. unfold Social.like_entity.
  apply String.eqb_neq in H. rewrite H. reflexivity.
Qed.

Lemma like_entity_target id p :
  Social.prompt_id p = id ->
  Social.like_entity id p
  = Social.mkPrompt (Social.prompt_id p) (Social.author_id p) (Social.author_name p)
      (Social.title p) (Social.content p) (Social.category p) (Social.created_at p)
      (if Social.liked_by_user p then Social.likes p - 1 else Social.likes p + 1)
      (negb (Social.liked_by_user p)) (Social.comments p).
Proof.
  intros H. unfold Social.like_entity.
  apply String.eqb_eq in H. rewrite H.
  destruct (Social.liked_by_user p); reflexivity.
Qed.

Lemma comment_entity_other id c p :
  Social.prompt_id p <> id -> Social.comment_entity id c p = p.
Proof.
  intros H. unfold Social.comment_entity.
  apply String.eqb_neq in H. rewrite H. reflexivity.
Qed.

Lemma handleLike_lookup now id s i :
  Social.prompts (Social.handleLike now id s) !! i
  = match Social.user s with
    | Some _ => Social.like_entity id <$> Social.prompts s !! i
    | None => Social.prompts s !! i
    end.
Proof.
  unfold Social.handleLike. destruct (Social.user s); simpl; [|reflexivity].
  apply lookup_map.
Qed.

(** The comment built by [handleCommentSubmit]. *)
Lemma handleCommentSubmit_accepted now now_id iso id s u t :
  Social.user s = Some u -> Social.commentInputs s !! id = Some t ->
  ~ whitespace_only t ->
  Social.prompts (Social.handleCommentSubmit now now_id iso id s)
  = List.map
      (Social.comment_entity id
         (Social.mkComment (JS.toString now_id)
            (JS.or_else (Social.meta_full_name u) "User") t iso))
      (Social.prompts s).
Proof.
  intros Hu Ht Hn. unfold Social.handleCommentSubmit. rewrite Hu, Ht. simpl.
  destruct (negb (JS.truthy (JS.trim t))) eqn:E; [|reflexivity].
  apply not_truthy_trim in E. contradiction.
Qed.

Lemma handleCommentSubmit_prompts now now_id iso id s :
  Social.prompts (Social.handleCommentSubmit now now_id iso id s) = Social.prompts s
  \/ exists c,
       Social.prompts (Social.handleCommentSubmit now now_id iso id s)
       = List.map (Social.comment_entity id c) (Social.prompts s).
Proof.
  unfold Social.handleCommentSubmit. destruct (Social.user s); [|left; reflexivity].
  destruct (Social.blank_input _); [left; reflexivity|].
  right. eexists. reflexivity.
Qed.

(** C10. [handleLike] changes nothing of the store but [likes] and
    [liked_by_user] of the entities carrying the given id, and
    [handleCommentSubmit] nothing but the [comments] of those entities,
    which grow by one comment at the end when the command is accepted:
    every position of the store keeps its entity, with the same id,
    author, title, content, category and creation time. *)
Theorem like_and_comment_frame (id : string) (s : Social.State) (i : nat)
    (p : Social.Prompt) :
  Social.prompts s !! i = Some p ->
  (forall now,
     let s' := Social.handleLike now id s in
     length (Social.prompts s') = length (Social.prompts s)
     /\ exists p', Social.prompts s' !! i = Some p'
        /\ Social.prompt_id p' = Social.prompt_id p
        /\ Social.author_id p' = Social.author_id p
        /\ Social.author_name p' = Social.author_name p
        /\ Social.title p' = Social.title p
        /\ Social.content p' = Social.content p
        /\ Social.category p' = Social.category p
        /\ Social.created_at p' = Social.created_at p
        /\ Social.comments p' = Social.comments p
        /\ (Social.prompt_id p <> id -> p' = p))
  /\ (forall now now_id iso,
        let s' := Social.handleCommentSubmit now now_id iso id s in
        length (Social.prompts s') = length (Social.prompts s)
        /\ exists p', Social.prompts s' !! i = Some p'
           /\ Social.prompt_id p' = Social.prompt_id p
           /\ Social.author_id p' = Social.author_id p
           /\ Social.author_name p' = Social.author_name p
           /\ Social.title p' = Social.title p
           /\ Social.content p' = Social.content p
           /\ Social.category p' = Social.category p
           /\ Social.created_at p' = Social.created_at p
           /\ Social.likes p' = Social.likes p
           /\ Social.liked_by_user p' = Social.liked_by_user p
           /\ (Social.prompt_id p <> id -> p' = p)
           /\ (Social.comments p' = Social.comments p
               \/ exists c, Social.comments p' = (Social.comments p ++ [c])%list)
           /\ (forall u t,
                 Social.user s = Some u ->
                 Social.commentInputs s !! id = Some t ->
                 ~ whitespace_only t ->
                 Social.prompt_id p = id ->
                 Social.comments p'
                 = (Social.comments p
                    ++ [Social.mkComment (JS.toString now_id)
                          (JS.or_else (Social.meta_full_name u) "User") t iso])%list)).
Proof.
  intros Hp. split.
  - intros now s'. subst s'. split.
    + unfold Social.handleLike. destruct (Social.user s); simpl;
        [apply length_map | reflexivity].
    + rewrite handleLike_lookup, Hp. destruct (Social.user s); simpl.
      * eexists; split; [reflexivity|].
        unfold Social.like_entity.
        destruct (String.eqb (Social.prompt_id p) id) eqn:E; simpl.
        -- apply String.eqb_eq in E. repeat split. congruence.
        -- repeat split.
      * exists p. repeat split.
  - intros now now_id iso s'. subst s'. split.
    + destruct (handleCommentSubmit_prompts now now_id iso id s) as [-> | [c ->]];
        [reflexivity | apply length_map].
    + destruct (Social.user s) as [u|] eqn:Hu.
      2:{ exists p. unfold Social.handleCommentSubmit. rewrite Hu. simpl.
          repeat split; auto. discriminate. }
      destruct (Social.commentInputs s !! id) as [t|] eqn:Ht.
      2:{ exists p. unfold Social.handleCommentSubmit. rewrite Hu, Ht. simpl.
          repeat split; auto. discriminate. }
      destruct (negb (JS.truthy (JS.trim t))) eqn:E.
      { exists p. unfold Social.handleCommentSubmit. rewrite Hu, Ht. simpl.
        rewrite E. repeat split; auto.
        intros u' t' _ [= <-] Hn. apply not_truthy_trim in E. contradiction. }
      assert (Hn : ~ whitespace_only t).
      { intros Hw. apply not_truthy_trim in Hw. congruence. }
      rewrite (handleCommentSubmit_accepted _ _ _ _ _ _ _ Hu Ht Hn).
      rewrite lookup_map, Hp. simpl. eexists; split; [reflexivity|].
      unfold Social.comment_entity.
      destruct (String.eqb (Social.prompt_id p) id) eqn:Eid; simpl.
      * apply String.eqb_eq in Eid. repeat split; try congruence.
        right. eexists. reflexivity.
      * apply String.eqb_neq in Eid. repeat split; auto.
        intros u' t' _ _ _ Hid. contradiction.
Qed.

Lemma like_and_comment_frame_witness :
  let u := Social.mkUser "u1" None None in
  let a := Social.mkPrompt "1" "u1" "Ann" "t1" "c1" "Art" "d1" 5 false [] in
  let b := Social.mkPrompt "2" "u2" "Bob" "t2" "c2" "Code" "d2" 3 true [] in
  let s := Social.mkState (Some u) [a; b] false "" "All" false [] Social.emptyForm
             {[ "1" := "nice" ]} in
  exists p', Social.prompts (Social.handleCommentSubmit 10 11 "now" "1" s) !! 0%nat = Some p'
    /\ Social.comments p' = [Social.mkComment "11" "User" "nice" "now"]
    /\ Social.likes p' = 5.
Proof.
  intros u a b s.
  destruct (like_and_comment_frame "1" s 0%nat a eq_refl) as [_ H].
  destruct (H 10 11 "now") as (_ & p' & Hp' & _ & _ & _ & _ & _ & _ & _ & Hl & _ & _ & _ & Hc).
  exists p'. split; [exact Hp'|]. split; [|exact Hl].
  apply (Hc u "nice"); [reflexivity | reflexivity | | reflexivity].
  simpl. intros [H0 _]. vm_compute in H0. discriminate.
Defined.

Lemma handleLike_user now id s :
  Social.user (Social.handleLike now id s) = Social.user s.
Proof. unfold Social.handleLike. destruct (Social.user s) eqn:E; simpl; auto. Qed.

Lemma like_run_counts id nows :
  forall s u i p,
    Social.user s = Some u ->
    Social.prompts s !! i = Some p ->
    Social.prompt_id p = id ->
    exists p',
      Social.prompts (like_final id nows s) !! i = Some p'
      /\ Social.prompt_id p' = id
      /\ Social.likes p'
         = Social.likes p
           + net_like_transitions (Social.liked_by_user p)
               (List.map (liked_at i) (like_states id nows s))
      /\ Social.liked_by_user p'
         = xorb (Social.liked_by_user p) (Nat.odd (length nows)).
Proof.
  induction nows as [|t nows IH]; intros s u i p Hu Hp Hid.
  - exists p. simpl. rewrite Hp, xorb_false_r. repeat split; auto. lia.
  - pose (s1 := Social.handleLike t id s).
    assert (Hu1 : Social.user s1 = Some u) by (unfold s1; rewrite handleLike_user; exact Hu).
    assert (Hp1 : Social.prompts s1 !! i = Some (Social.like_entity id p)).
    { unfold s1. rewrite handleLike_lookup, Hu, Hp. reflexivity. }
    assert (Hid1 : Social.prompt_id (Social.like_entity id p) = id).
    { rewrite (like_entity_target _ _ Hid). exact Hid. }
    destruct (IH s1 u i _ Hu1 Hp1 Hid1) as (p' & Hf & Hi' & Hl & Hb).
    exists p'. change (like_final id (t :: nows) s) with (like_final id nows s1).
    split; [exact Hf|]. split; [exact Hi'|].
    change (like_states id (t :: nows) s) with (s1 :: like_states id nows s1).
    simpl List.map. simpl net_like_transitions.
    assert (Hobs : liked_at i s1 = Social.liked_by_user (Social.like_entity id p)).
    { unfold liked_at. rewrite Hp1. reflexivity. }
    rewrite Hobs, Hl, Hb. rewrite (like_entity_target _ _ Hid). simpl.
    change (length (t :: nows)) with (S (length nows)).
    rewrite Nat.odd_succ, <- Nat.negb_odd.
    destruct (Social.liked_by_user p), (Nat.odd (length nows)); simpl; split;
      try reflexivity; lia.
Qed.

(** C2. With a signed-in user, after any number of [handleLike] calls
    on the id of an entity of the store, the entity is still at its
    position, its [likes] is the initial value plus the net number of
    like transitions seen along the calls, and its [liked_by_user] is
    the initial value flipped when the number of calls is odd.  From
    [likes = 5] and [liked_by_user = false] one call gives 6 and
    [true], a second call gives 5 and [false] again. *)
Theorem toggle_like_sequence (id : string) (nows : list Z) (s : Social.State)
    (u : Social.User) (i : nat) (p : Social.Prompt) :
  Social.user s = Some u ->
  Social.prompts s !! i = Some p ->
  Social.prompt_id p = id ->
  (exists p',
     Social.prompts (like_final id nows s) !! i = Some p'
     /\ Social.likes p'
        = Social.likes p
          + net_like_transitions (Social.liked_by_user p)
              (List.map (liked_at i) (like_states id nows s))
     /\ Social.liked_by_user p'
        = xorb (Social.liked_by_user p) (Nat.odd (length nows)))
  /\ (Social.likes p = 5 -> Social.liked_by_user p = false ->
      forall t1 t2,
        let s1 := Social.handleLike t1 id s in
        let s2 := Social.handleLike t2 id s1 in
        Social.prompts s1 !! i = Some (Social.like_entity id p)
        /\ likes_at i s1 = 6 /\ liked_at i s1 = true
        /\ Social.prompts s2 !! i = Some p
        /\ likes_at i s2 = 5 /\ liked_at i s2 = false).
Proof.
  intros Hu Hp Hid. split.
  - destruct (like_run_counts id nows s u i p Hu Hp Hid) as (p' & H1 & _ & H2 & H3).
    exists p'. auto.
  - intros H5 Hf t1 t2 s1 s2.
    assert (Hp1 : Social.prompts s1 !! i = Some (Social.like_entity id p)).
    { unfold s1. rewrite handleLike_lookup, Hu, Hp. reflexivity. }
    assert (Hp2 : Social.prompts s2 !! i = Some p).
    { unfold s2. rewrite handleLike_lookup. unfold s1 at 1.
      rewrite handleLike_user, Hu, Hp1. simpl. f_equal.
      rewrite (like_entity_target id p Hid).
      unfold Social.like_entity. simpl. apply String.eqb_eq in Hid. rewrite Hid.
      destruct p; simpl in *. subst. reflexivity. }
    unfold likes_at, liked_at. rewrite Hp1, Hp2. simpl.
    rewrite (like_entity_target id p Hid). simpl. rewrite Hf, H5.
    repeat split; reflexivity.
Qed.

Lemma toggle_like_sequence_witness :
  let u := Social.mkUser "u1" None None in
  let a := Social.mkPrompt "1" "u2" "Ann" "t1" "c1" "Art" "d1" 5 false [] in
  let s := Social.mkState (Some u) [a] false "" "All" false [] Social.emptyForm ∅ in
  exists p', Social.prompts (like_final "1" [10; 20; 30] s) !! 0%nat = Some p'
    /\ Social.likes p' = 6 /\ Social.liked_by_user p' = true.
Proof.
  intros u a s.
  destruct (toggle_like_sequence "1" [10; 20; 30] s u 0%nat a eq_refl eq_refl eq_refl)
    as [(p' & H1 & H2 & H3) _].
  exists p'. split; [exact H1|]. split; [exact H2 | exact H3].
Defined.

(** *** The like invariant along the runs of the page *)

Lemma sort_insert_Forall {A} (P : A -> Prop) cmp x l :
  P x -> Forall P l -> Forall P (JS.sort_insert cmp x l).
Proof.
  intros Hx. induction 1 as [|y l Hy Hl IH]; simpl.
  - repeat constructor. exact Hx.
  - destruct (0 <? cmp x y); repeat constructor; auto.
Qed.

Lemma sort_Forall {A} (P : A -> Prop) cmp l :
  Forall P l -> Forall P (JS.sort cmp l).
Proof.
  induction 1; simpl; [constructor | apply sort_insert_Forall; assumption].
Qed.

Lemma sort_insert_Permutation {A} cmp (x : A) l :
  Permutation (x :: l) (JS.sort_insert cmp x l).
Proof.
  induction l as [|y l IH]; simpl; [reflexivity|].
  destruct (0 <? cmp x y); [|reflexivity].
  rewrite perm_swap. apply perm_skip, IH.
Qed.

Lemma sort_Permutation {A} cmp (l : list A) : Permutation l (JS.sort cmp l).
Proof.
  induction l as [|x l IH]; simpl; [reflexivity|].
  rewrite <- sort_insert_Permutation. apply perm_skip, IH.
Qed.

Lemma filter_Forall {A} (P : A -> Prop) f l :
  Forall P l -> Forall P (List.filter f l).
Proof.
  induction 1 as [|x l Hx Hl IH]; simpl; [constructor|].
  destruct (f x); [constructor|]; assumption.
Qed.

Lemma map_Forall {A} (P : A -> Prop) f l :
  (forall x, P x -> P (f x)) -> Forall P l -> Forall P (List.map f l).
Proof. intros Hf. induction 1; simpl; constructor; auto. Qed.

Lemma like_entity_ok id p : likes_ok p -> likes_ok (Social.like_entity id p).
Proof.
  unfold likes_ok, Social.like_entity. intros [H0 H1].
  destruct (String.eqb _ _); [|auto].
  destruct (Social.liked_by_user p); simpl; split; try discriminate;
    try specialize (H1 eq_refl); lia.
Qed.

Lemma comment_entity_ok id c p : likes_ok p -> likes_ok (Social.comment_entity id c p).
Proof.
  unfold likes_ok, Social.comment_entity. intros H.
  destruct (String.eqb _ _); simpl; exact H.
Qed.

Lemma socialize_ok r :
  match Social.raw_likes r with Some n => 0 <= n | None => True end ->
  likes_ok (Social.socialize r).
Proof.
  unfold likes_ok, Social.socialize, Social.num_or_zero. simpl. intros H.
  split; [|discriminate].
  destruct (Social.raw_likes r) as [n|]; [|lia].
  destruct (n =? 0); lia.
Qed.

Lemma step_likes_ok getTime s e :
  Social.event_ok e -> Forall likes_ok (Social.prompts s) ->
  Forall likes_ok (Social.prompts (Social.step getTime s e)).
Proof.
  intros He Hs. destruct e; simpl; try exact Hs.
  - (* the list request settled *)
    destruct res as [data|]; simpl in *.
    + apply sort_Forall. unfold Social.rows_ok in He.
      induction He; simpl; constructor; auto using socialize_ok.
    + repeat constructor; simpl; try lia; discriminate.
  - unfold Social.handleSubmit. destruct (Social.user s); [|exact Hs].
    destruct (_ || _); [exact Hs|]. simpl.
    constructor; [|exact Hs]. split; simpl; [lia | discriminate].
  - unfold Social.handleDelete. destruct confirmed; simpl; [|exact Hs].
    apply filter_Forall, Hs.
  - unfold Social.handleLike. destruct (Social.user s); simpl; [|exact Hs].
    apply map_Forall; [apply like_entity_ok | exact Hs].
  - unfold Social.handleCommentSubmit. destruct (Social.user s); [|exact Hs].
    destruct (Social.blank_input _); [exact Hs|]. simpl.
    apply map_Forall; [apply comment_entity_ok | exact Hs].
Qed.

Lemma fold_step_likes_ok getTime es :
  forall s, Forall Social.event_ok es -> Forall likes_ok (Social.prompts s) ->
            Forall likes_ok (Social.prompts (fold_left (Social.step getTime) es s)).
Proof.
  induction es as [|e es IH]; intros s He Hs; simpl; [exact Hs|].
  apply Forall_cons in He as [He Hes].
  apply IH; [exact Hes | apply step_likes_ok; assumption].
Qed.

(** C3. A [handleLike] call that flips [liked_by_user] of an entity
    moves its [likes] by one in the same step, up when the flag becomes
    [true] and down when it becomes [false]; and in every state the
    page reaches from its initial state by its handlers, with list
    responses whose [likes] are not negative, no entity has negative
    [likes]. *)
Theorem likes_step_and_invariant :
  (forall now id s i p p',
     Social.prompts s !! i = Some p ->
     Social.prompts (Social.handleLike now id s) !! i = Some p' ->
     Social.liked_by_user p' <> Social.liked_by_user p ->
     (Social.liked_by_user p' = true /\ Social.likes p' = Social.likes p + 1)
     \/ (Social.liked_by_user p' = false /\ Social.likes p' = Social.likes p - 1))
  /\ (forall getTime es,
        Forall Social.event_ok es ->
        Forall (fun p => 0 <= Social.likes p) (Social.prompts (Social.run getTime es))).
Proof.
  split.
  - intros now id s i p p' Hp Hp' Hne.
    rewrite handleLike_lookup, Hp in Hp'.
    destruct (Social.user s); simpl in Hp'; injection Hp' as <-; [|contradiction].
    unfold Social.like_entity in *.
    destruct (String.eqb _ _); [|contradiction].
    simpl in *. destruct (Social.liked_by_user p); simpl; auto.
  - intros getTime es He.
    assert (H : Forall likes_ok (Social.prompts (Social.run getTime es))).
    { apply fold_step_likes_ok; [exact He | constructor]. }
    eapply Forall_impl; [exact H|]. intros p [H0 _]. exact H0.
Qed.

Lemma likes_step_and_invariant_witness :
  let u := Social.mkUser "u1" None None in
  let row := Social.mkRaw "p1" "t" "c" "Art" "2024-01-01" (Some 3) None None None in
  let es := [Social.EvAuth (Some u);
             Social.EvLoadSettle (Some u) "a" "b" (Social.LoadOk [row]);
             Social.EvLike 1 "p1"; Social.EvLike 2 "p1"; Social.EvLike 3 "p1";
             Social.EvLoadSettle (Some u) "a" "b" Social.LoadThrows;
             Social.EvLike 4 "2"] in
  Forall (fun p => 0 <= Social.likes p)
         (Social.prompts (Social.run (fun _ => None) es)).
Proof.
  intros u row es.
  apply (proj2 likes_step_and_invariant (fun _ => None) es).
  repeat constructor. simpl. lia.
Defined.

(** ** Blank input *)

Lemma blank_input_spec (t : option string) :
  Social.blank_input t = true <->
  match t with Some x => whitespace_only x | None => True end.
Proof.
  destruct t as [x|]; simpl; [apply not_truthy_trim | tauto].
Qed.

Lemma blank_form_spec a b :
  negb (JS.truthy (JS.trim a)) || negb (JS.truthy (JS.trim b)) = true <->
  whitespace_only a \/ whitespace_only b.
Proof. rewrite orb_true_iff, !not_truthy_trim. reflexivity. Qed.

(** C8, as the claim states it, fails on the social page: a signed-in
    user who submits a comment made of three spaces gets no toast at
    all. *)
Lemma blank_comment_no_notification :
  let u := Social.mkUser "u1" None None in
  let a := Social.mkPrompt "1" "u2" "Ann" "t1" "c1" "Art" "d1" 5 false [] in
  let s := Social.mkState (Some u) [a] false "" "All" false [] Social.emptyForm
             {[ "1" := "   " ]} in
  let s' := Social.handleCommentSubmit 10 11 "now" "1" s in
  whitespace_only "   "
  /\ Social.prompts s' = Social.prompts s
  /\ ~ exists t, Social.toasts s' = (Social.toasts s ++ [t])%list.
Proof.
  intros u a s s'. split; [|split].
  - vm_compute. tauto.
  - reflexivity.
  - intros [t H]. vm_compute in H. destruct (Social.toasts s); discriminate.
Qed.

(** C8, amended. A blank required field stops the command before any
    change of the store: [handleSubmit] of the social page with a
    title or content of white space only, and [handleCommentSubmit]
    with an input that is missing or of white space only, leave the
    store (comments included) as it is, and for a signed-in user the
    blank comment leaves the whole state, toast queue included, as it
    is; [handleSubmit] of the library page with a blank title or
    content leaves the store as it is and appends one [error] toast. *)
Theorem blank_input_rejected :
  (forall now_id iso now (s : Social.State),
     whitespace_only (Social.form_title (Social.form s))
     \/ whitespace_only (Social.form_content (Social.form s)) ->
     Social.prompts (Social.handleSubmit now_id iso now s) = Social.prompts s)
  /\ (forall now now_id iso id (s : Social.State),
        match Social.commentInputs s !! id with
        | Some t => whitespace_only t
        | None => True
        end ->
        Social.prompts (Social.handleCommentSubmit now now_id iso id s)
        = Social.prompts s
        /\ (forall u, Social.user s = Some u ->
                      Social.handleCommentSubmit now now_id iso id s = s))
  /\ (forall now (s : Library.State),
        whitespace_only (Library.form_title (Library.form s))
        \/ whitespace_only (Library.form_content (Library.form s)) ->
        let s' := Library.handleSubmit now s in
        Library.prompts s' = Library.prompts s
        /\ Library.toasts s'
           = (Library.toasts s ++ [mkToast now "Title and content are required" error])%list
        /\ s' = Library.setToasts (fun _ => Library.toasts s') s).
Proof.
  split; [|split].
  - intros now_id iso now s H. apply blank_form_spec in H.
    unfold Social.handleSubmit. destruct (Social.user s); [|reflexivity].
    rewrite H. reflexivity.
  - intros now now_id iso id s H. apply blank_input_spec in H.
    unfold Social.handleCommentSubmit. split.
    + destruct (Social.user s); [|reflexivity]. rewrite H. reflexivity.
    + intros u ->. rewrite H. reflexivity.
  - intros now s H s'. apply blank_form_spec in H. subst s'.
    unfold Library.handleSubmit. rewrite H. repeat split.
Qed.

Lemma blank_input_rejected_witness :
  let u := Social.mkUser "u1" None None in
  let a := Social.mkPrompt "1" "u2" "Ann" "t1" "c1" "Art" "d1" 5 false [] in
  let s := Social.mkState (Some u) [a] false "" "All" false [] Social.emptyForm
             {[ "1" := "   " ]} in
  Social.handleCommentSubmit 10 11 "now" "1" s = s
  /\ Library.toasts (Library.handleSubmit 7 Library.initial)
     = [mkToast 7 "Title and content are required" error].
Proof.
  intros u a s.
  destruct blank_input_rejected as (_ & Hc & Hl). split.
  - assert (Hb : match Social.commentInputs s !! "1" with
                 | Some t => whitespace_only t
                 | None => True
                 end) by (vm_compute; tauto).
    exact (proj2 (Hc 10 11 "now" "1" s Hb) u eq_refl).
  - assert (Hb : whitespace_only (Library.form_title (Library.form Library.initial))
                 \/ whitespace_only (Library.form_content (Library.form Library.initial)))
      by (left; exact I).
    exact (proj1 (proj2 (Hl 7 Library.initial Hb))).
Defined.

(** ** Who may delete *)

(** C1, as the claim states it, fails: [handleDelete] called by a
    signed-in user on an entity of another author removes the entity
    and appends a [success] toast. *)
Lemma delete_by_non_author_succeeds :
  let u := Social.mkUser "u1" None None in
  let a := Social.mkPrompt "1" "other_user" "Ann" "t1" "c1" "Art" "d1" 5 false [] in
  let s := Social.mkState (Some u) [a] false "" "All" false [] Social.emptyForm ∅ in
  let s' := Social.handleDelete true 10 "1" s in
  Social.author_id a <> Social.user_id u
  /\ Social.prompts s' = []
  /\ Social.prompts s' <> Social.prompts s
  /\ Social.toasts s' = [mkToast 10 "Prompt deleted" success].
Proof.
  intros u a s s'. repeat split; try reflexivity; discriminate.
Qed.

(** C1, amended. [handleDelete] makes no check of its own: once
    confirmed it drops every entity carrying the id and appends the
    [success] toast "Prompt deleted", whoever is signed in, and a
    declined confirmation changes nothing.  The author rule lives in
    the view: a card carries a delete button only for an entity of the
    store that is shown by the filter, while a user is signed in whose
    id is the entity's [author_id]. *)
Theorem delete_gated_by_view :
  (forall (s : Social.State) p,
     In p (Social.delete_controls s) ->
     Social.loading s = false
     /\ In p (Social.filtered s) /\ In p (Social.prompts s)
     /\ exists u, Social.user s = Some u /\ Social.author_id p = Social.user_id u)
  /\ (forall now id (s : Social.State),
        let s' := Social.handleDelete true now id s in
        Social.prompts s'
        = List.filter (fun p => negb (String.eqb (Social.prompt_id p) id))
            (Social.prompts s)
        /\ Social.toasts s'
           = (Social.toasts s ++ [mkToast now "Prompt deleted" success])%list)
  /\ (forall now id (s : Social.State), Social.handleDelete false now id s = s).
Proof.
  split; [|split].
  - intros s p H. unfold Social.delete_controls in H.
    destruct (Social.loading s); [destruct H|].
    apply filter_In in H as [Hf Ho]. split; [reflexivity|]. split; [exact Hf|].
    split; [apply filter_In in Hf; tauto|].
    unfold Social.delete_offered in Ho.
    destruct (Social.user s) as [u|]; [|discriminate].
    exists u. split; [reflexivity | apply String.eqb_eq, Ho].
  - intros now id s s'. split; reflexivity.
  - reflexivity.
Qed.

Lemma delete_gated_by_view_witness :
  let u := Social.mkUser "u1" None None in
  let a := Social.mkPrompt "1" "other_user" "Ann" "t1" "c1" "Art" "d1" 5 false [] in
  let b := Social.mkPrompt "2" "u1" "Me" "t2" "c2" "Code" "d2" 0 false [] in
  let s := Social.mkState (Some u) [a; b] false "" "All" false [] Social.emptyForm ∅ in
  Social.delete_controls s = [b]
  /\ exists v, Social.user s = Some v /\ Social.author_id b = Social.user_id v.
Proof.
  intros u a b s. split; [reflexivity|].
  assert (Hin : In b (Social.delete_controls s)) by (vm_compute; tauto).
  exact (proj2 (proj2 (proj2 (proj1 delete_gated_by_view s b Hin)))).
Defined.

(** ** Relative time labels *)

(** X1. [getRelativeTime] depends on the age [now - d] in milliseconds
    alone: below one minute (future dates included) the label is
    "Just now"; below one hour, one day and seven days it is the age
    in whole minutes, hours and days, rounded down, with the unit; from
    seven days on, and for a date that does not parse, it is the
    locale date. *)
Theorem getRelativeTime_by_age (locale : string) (now d : Z) :
  let age := now - d in
  (age < 60000 -> getRelativeTime locale now (Some d) = "Just now")
  /\ (60000 <= age < 3600000 ->
      getRelativeTime locale now (Some d) = JS.toString (age / 60000) +:+ "m ago"
      /\ 1 <= age / 60000 <= 59)
  /\ (3600000 <= age < 86400000 ->
      getRelativeTime locale now (Some d) = JS.toString (age / 3600000) +:+ "h ago"
      /\ 1 <= age / 3600000 <= 23)
  /\ (86400000 <= age < 604800000 ->
      getRelativeTime locale now (Some d) = JS.toString (age / 86400000) +:+ "d ago"
      /\ 1 <= age / 86400000 <= 6)
  /\ (604800000 <= age -> getRelativeTime locale now (Some d) = locale)
  /\ getRelativeTime locale now None = locale.
Proof.
  intros age. unfold getRelativeTime. fold age.
  assert (Hm : age / 1000 / 60 = age / 60000) by (rewrite Z.div_div by lia; reflexivity).
  assert (Hh : age / 1000 / 60 / 60 = age / 3600000) by (rewrite !Z.div_div by lia; reflexivity).
  assert (Hd : age / 1000 / 60 / 60 / 24 = age / 86400000) by (rewrite !Z.div_div by lia; reflexivity).
  cbv zeta. rewrite Hd, Hh, Hm.
  assert (Bs : age / 1000 < 60 <-> age < 60000) by (Z.div_mod_to_equations; lia).
  assert (Bm : age / 60000 < 60 <-> age < 3600000) by (Z.div_mod_to_equations; lia).
  assert (Bh : age / 3600000 < 24 <-> age < 86400000) by (Z.div_mod_to_equations; lia).
  assert (Bd : age / 86400000 < 7 <-> age < 604800000) by (Z.div_mod_to_equations; lia).
  assert (Lm : 60000 <= age -> 1 <= age / 60000) by (Z.div_mod_to_equations; lia).
  assert (Lh : 3600000 <= age -> 1 <= age / 3600000) by (Z.div_mod_to_equations; lia).
  assert (Ld : 86400000 <= age -> 1 <= age / 86400000) by (Z.div_mod_to_equations; lia).
  repeat split; try reflexivity; intros;
    destruct (Z.ltb_spec (age / 1000) 60);
    destruct (Z.ltb_spec (age / 60000) 60);
    destruct (Z.ltb_spec (age / 3600000) 24);
    destruct (Z.ltb_spec (age / 86400000) 7);
    try reflexivity; lia.
Qed.

Lemma getRelativeTime_by_age_witness :
  getRelativeTime "1/1/2024" 7260000 (Some 0) = "2h ago"
  /\ getRelativeTime "1/1/2024" 0 (Some 5000) = "Just now".
Proof.
  split.
  - apply (proj1 (proj2 (proj2 (getRelativeTime_by_age "1/1/2024" 7260000 0)))). lia.
  - apply (proj1 (getRelativeTime_by_age "1/1/2024" 0 5000)). lia.
Defined.

(** ** Tabs *)

Lemma existsb_eqb_In (x : string) (l : list string) :
  existsb (String.eqb x) l = true <-> In x l.
Proof.
  rewrite existsb_exists. split.
  - intros (y & Hy & E). apply String.eqb_eq in E. subst. exact Hy.
  - intros H. exists x. split; [exact H | apply String.eqb_refl].
Qed.

Lemma filter_filter {A} (f g : A -> bool) l :
  List.filter f (List.filter g l) = List.filter (fun x => g x && f x) l.
Proof.
  induction l as [|x l IH]; simpl; [reflexivity|].
  destruct (g x); simpl; [destruct (f x)|]; rewrite IH; reflexivity.
Qed.

Lemma fold_set_add (l : list string) :
  forall acc,
    fold_left set_add l acc
    = (acc ++ List.filter (fun y => negb (existsb (String.eqb y) acc))
                (fold_left set_add l []))%list.
Proof.
  induction l as [|x l IH]; intros acc; simpl.
  - rewrite app_nil_r. reflexivity.
  - rewrite (IH (set_add acc x)), (IH (set_add [] x)).
    remember (fold_left set_add l []) as F eqn:EF. clear EF IH.
    change (set_add [] x) with [x].
    rewrite List.filter_app. simpl List.filter at 2.
    unfold set_add. destruct (existsb (String.eqb x) acc) eqn:E; simpl.
    + f_equal. rewrite filter_filter. apply List.filter_ext. intros y.
      rewrite orb_false_r.
      destruct (String.eqb y x) eqn:Eyx; [|reflexivity].
      apply String.eqb_eq in Eyx. subst. rewrite E. reflexivity.
    + rewrite <- app_assoc. simpl. do 2 f_equal.
      rewrite filter_filter. apply List.filter_ext. intros y.
      rewrite existsb_app. simpl. rewrite orb_false_r, negb_orb.
      apply andb_comm.
Qed.

(** The set of a list that starts with [x]: [x] first, then the set
    of the rest without [x]. *)
Lemma set_from_cons x l :
  set_from (x :: l)
  = x :: List.filter (fun y => negb (String.eqb y x)) (set_from l).
Proof.
  unfold set_from. simpl. rewrite fold_set_add. unfold set_add. simpl.
  f_equal. apply List.filter_ext. intros y. rewrite orb_false_r. reflexivity.
Qed.

Lemma set_from_In l x : In x (set_from l) <-> In x l.
Proof.
  revert x. induction l as [|a l IH]; intros x; [reflexivity|].
  rewrite set_from_cons. simpl. rewrite filter_In, IH, negb_true_iff, String.eqb_neq.
  destruct (String.eqb_spec a x); [subst; tauto|].
  split; [tauto|]. intros [H|H]; [tauto|]. right. split; [exact H | congruence].
Qed.

Lemma filter_NoDup {A} (f : A -> bool) l : NoDup l -> NoDup (List.filter f l).
Proof.
  induction 1 as [|x l Hx Hl IH]; simpl; [constructor|].
  destruct (f x); [|exact IH]. constructor; [|exact IH].
  intros H. apply Hx. apply list_elem_of_In in H. apply filter_In in H.
  apply list_elem_of_In. tauto.
Qed.

Lemma set_from_NoDup l : NoDup (set_from l).
Proof.
  induction l as [|a l IH]; [constructor|].
  rewrite set_from_cons. constructor; [|apply filter_NoDup, IH].
  intros H. apply list_elem_of_In, filter_In in H as [_ H].
  rewrite String.eqb_refl in H. discriminate.
Qed.

Lemma truthy_spec x : JS.truthy x = true <-> x <> "".
Proof. destruct x; simpl; split; congruence. Qed.

Lemma categories_of_tail_In (cats : list string) c :
  In c (tl (categories_of cats)) <-> c <> "" /\ In c cats.
Proof.
  unfold categories_of. simpl. rewrite set_from_In, filter_In, truthy_spec. tauto.
Qed.

(** X2. The tabs of both pages are "All" followed by the categories of
    the store without repetition: a string is among them exactly when
    it is not empty and is the category of an entity of the store. *)
Theorem categories_are_store_categories :
  (forall s : Social.State,
     hd_error (Social.categories s) = Some "All"
     /\ NoDup (tl (Social.categories s))
     /\ forall c, In c (tl (Social.categories s))
                  <-> c <> "" /\ exists p, In p (Social.prompts s) /\ Social.category p = c)
  /\ (forall s : Library.State,
        hd_error (Library.categories s) = Some "All"
        /\ NoDup (tl (Library.categories s))
        /\ forall c, In c (tl (Library.categories s))
                     <-> c <> "" /\ exists p, In p (Library.prompts s) /\ Library.category p = c).
Proof.
  split; intros s; (split; [reflexivity|]); (split; [apply set_from_NoDup|]); intros c.
  - unfold Social.categories. rewrite categories_of_tail_In, in_map_iff.
    split; intros [H (p & H1 & H2)]; (split; [exact H|]); exists p; auto.
  - unfold Library.categories. rewrite categories_of_tail_In, in_map_iff.
    split; intros [H (p & H1 & H2)]; (split; [exact H|]); exists p; auto.
Qed.

(** X3. Every tab other than "All" shows something: with an empty
    search text, selecting a category of the tab list gives a filtered
    view that is not empty and holds entities of that category only.
    Both pages. *)
Theorem category_tab_not_empty :
  (forall (s : Social.State) c,
     In c (Social.categories s) -> c <> "All" ->
     let v := Social.filtered (Social.setActiveTab c (Social.setSearch "" s)) in
     v <> [] /\ Forall (fun p => Social.category p = c) v)
  /\ (forall (s : Library.State) c,
        In c (Library.categories s) -> c <> "All" ->
        let v := Library.filtered (Library.setActiveTab c (Library.setSearch "" s)) in
        v <> [] /\ Forall (fun p => Library.category p = c) v).
Proof.
  assert (M : forall c t x cat, c <> "All" ->
                matches "" c t x cat = true <-> cat = c).
  { intros c t x cat Hc. unfold matches. simpl JS.toLowerCase at 2.
    rewrite includes_empty. simpl. apply String.eqb_neq in Hc. rewrite Hc. simpl.
    apply String.eqb_eq. }
  split; intros s c Hin Hc v.
  - destruct Hin as [Hin|Hin]; [congruence|].
    apply categories_of_tail_In in Hin as [_ Hin].
    apply in_map_iff in Hin as (p & Hpc & Hp).
    split.
    + assert (Hv : In p v) by (apply filter_In; split; [exact Hp | apply M; auto]).
      intros E. rewrite E in Hv. destruct Hv.
    + apply Forall_forall. intros q Hq. apply list_elem_of_In, filter_In in Hq as [_ Hq].
      apply (M c _ _ _ Hc) in Hq. exact Hq.
  - destruct Hin as [Hin|Hin]; [congruence|].
    apply categories_of_tail_In in Hin as [_ Hin].
    apply in_map_iff in Hin as (p & Hpc & Hp).
    split.
    + assert (Hv : In p v) by (apply filter_In; split; [exact Hp | apply M; auto]).
      intros E. rewrite E in Hv. destruct Hv.
    + apply Forall_forall. intros q Hq. apply list_elem_of_In, filter_In in Hq as [_ Hq].
      apply (M c _ _ _ Hc) in Hq. exact Hq.
Qed.

Lemma category_tab_not_empty_witness :
  let art := Social.mkPrompt "1" "a" "A" "t1" "c1" "Art" "d" 0 false [] in
  let code := Social.mkPrompt "2" "b" "B" "t2" "c2" "Code" "d" 0 false [] in
  let s := Social.setPrompts (fun _ => [art; code]) Social.initial in
  Social.filtered (Social.setActiveTab "Code" (Social.setSearch "" s)) <> [].
Proof.
  intros art code s.
  apply (proj1 category_tab_not_empty s "Code").
  - vm_compute. tauto.
  - discriminate.
Defined.

(** ** Creating *)

Lemma or_else_not_empty a b : b <> "" -> JS.or_else a b <> "".
Proof.
  intros Hb. unfold JS.or_else. destruct a as [x|]; [|exact Hb].
  destruct x; simpl; [exact Hb | discriminate].
Qed.

Lemma not_blank_form a b :
  ~ whitespace_only a -> ~ whitespace_only b ->
  negb (JS.truthy (JS.trim a)) || negb (JS.truthy (JS.trim b)) = false.
Proof.
  intros Ha Hb. destruct (_ || _) eqn:E; [|reflexivity].
  apply blank_form_spec in E. tauto.
Qed.

(** X4. An accepted [handleSubmit] (signed-in user, title and content
    not blank) puts one new entity in front of the unchanged store: its
    id is the clock reading in decimal, its author is the user, its
    title, content and category are the form's texts as typed (not
    trimmed), it has no likes and no comments, and its author name is
    never empty.  The form is cleared and closed and one [success]
    toast is appended. *)
Theorem handleSubmit_accepted (now_id : Z) (iso : string) (now : Z)
    (s : Social.State) (u : Social.User) :
  Social.user s = Some u ->
  ~ whitespace_only (Social.form_title (Social.form s)) ->
  ~ whitespace_only (Social.form_content (Social.form s)) ->
  let s' := Social.handleSubmit now_id iso now s in
  exists p,
    Social.prompts s' = p :: Social.prompts s
    /\ Social.prompt_id p = JS.toString now_id
    /\ Social.author_id p = Social.user_id u
    /\ Social.author_name p <> ""
    /\ Social.title p = Social.form_title (Social.form s)
    /\ Social.content p = Social.form_content (Social.form s)
    /\ Social.category p = Social.form_category (Social.form s)
    /\ Social.created_at p = iso
    /\ Social.likes p = 0 /\ Social.liked_by_user p = false
    /\ Social.comments p = []
    /\ Social.form s' = Social.emptyForm
    /\ Social.showForm s' = false
    /\ Social.toasts s' = (Social.toasts s ++ [mkToast now "Prompt Shared!" success])%list.
Proof.
  intros Hu Ht Hc s'. subst s'. unfold Social.handleSubmit.
  rewrite Hu, (not_blank_form _ _ Ht Hc). eexists. simpl.
  repeat split. apply or_else_not_empty. discriminate.
Qed.

Lemma handleSubmit_accepted_witness :
  let u := Social.mkUser "u1" (Some "ann@example.org") None in
  let s := Social.setForm (Social.mkForm "Title" "Body" "Art")
             (Social.setUser (Some u) Social.initial) in
  exists p, Social.prompts (Social.handleSubmit 1700 "iso" 1701 s) = [p]
            /\ Social.prompt_id p = "1700".
Proof.
  intros u s.
  assert (Ht : ~ whitespace_only (Social.form_title (Social.form s)))
    by (simpl; intros [H _]; vm_compute in H; discriminate).
  assert (Hc : ~ whitespace_only (Social.form_content (Social.form s)))
    by (simpl; intros [H _]; vm_compute in H; discriminate).
  destruct (handleSubmit_accepted 1700 "iso" 1701 s u eq_refl Ht Hc)
    as (p & H1 & H2 & _).
  exists p. split; [exact H1 | exact H2].
Defined.

Lemma handleSubmit_empty_form a i t s u :
  Social.user s = Some u -> Social.form s = Social.emptyForm ->
  Social.handleSubmit a i t s = s.
Proof.
  intros Hu Hf. unfold Social.handleSubmit. rewrite Hu, Hf. reflexivity.
Qed.

(** X5. A double submit never creates two posts: a second
    [handleSubmit] right after a first one leaves the store as the
    first one left it, and for a signed-in user it leaves the whole
    state as it is, because an accepted submit clears the form. *)
Theorem handleSubmit_twice (a1 a2 : Z) (i1 i2 : string) (t1 t2 : Z)
    (s : Social.State) :
  let s1 := Social.handleSubmit a1 i1 t1 s in
  let s2 := Social.handleSubmit a2 i2 t2 s1 in
  Social.prompts s2 = Social.prompts s1
  /\ (Social.user s <> None -> s2 = s1).
Proof.
  intros s1 s2. subst s2.
  destruct (Social.user s) as [u|] eqn:Hu.
  - destruct (negb (JS.truthy (JS.trim (Social.form_title (Social.form s))))
              || negb (JS.truthy (JS.trim (Social.form_content (Social.form s))))) eqn:E.
    + assert (H1 : s1 = s) by (unfold s1, Social.handleSubmit; rewrite Hu, E; reflexivity).
      rewrite H1. unfold Social.handleSubmit. rewrite Hu, E. auto.
    + assert (Hu1 : Social.user s1 = Some u)
        by (unfold s1, Social.handleSubmit; rewrite Hu, E; simpl; exact Hu).
      assert (Hf1 : Social.form s1 = Social.emptyForm)
        by (unfold s1, Social.handleSubmit; rewrite Hu, E; reflexivity).
      rewrite (handleSubmit_empty_form _ _ _ s1 u Hu1 Hf1). auto.
  - assert (Hu1 : Social.user s1 = None)
      by (unfold s1, Social.handleSubmit; rewrite Hu; simpl; exact Hu).
    split; [|intros H; contradiction].
    unfold Social.handleSubmit at 1. rewrite Hu1. reflexivity.
Qed.

Lemma handleSubmit_twice_witness :
  let u := Social.mkUser "u1" None None in
  let s := Social.setForm (Social.mkForm "Title" "Body" "Art")
             (Social.setUser (Some u) Social.initial) in
  Social.handleSubmit 5 "j" 6 (Social.handleSubmit 3 "i" 4 s)
  = Social.handleSubmit 3 "i" 4 s.
Proof.
  intros u s. apply (proj2 (handleSubmit_twice 3 5 "i" "j" 4 6 s)). discriminate.
Defined.

(** X6. The author can take back what was just created: after an
    accepted [handleSubmit] the view offers the delete button for the
    new entity, the counter of own posts has grown by one, and, when no
    older entity carries the new id, a confirmed [handleDelete] of that
    id restores the store. *)
Theorem create_then_delete (now_id : Z) (iso : string) (now now' : Z)
    (s : Social.State) (u : Social.User) :
  Social.user s = Some u ->
  ~ whitespace_only (Social.form_title (Social.form s)) ->
  ~ whitespace_only (Social.form_content (Social.form s)) ->
  let s' := Social.handleSubmit now_id iso now s in
  (forall p, hd_error (Social.prompts s') = Some p -> Social.delete_offered s' p = true)
  /\ Social.posts_count u s' = S (Social.posts_count u s)
  /\ (Forall (fun p => Social.prompt_id p <> JS.toString now_id) (Social.prompts s) ->
      Social.prompts (Social.handleDelete true now' (JS.toString now_id) s')
      = Social.prompts s).
Proof.
  intros Hu Ht Hc s'. subst s'. unfold Social.handleSubmit.
  rewrite Hu, (not_blank_form _ _ Ht Hc). split; [|split].
  - simpl. intros p [= <-]. unfold Social.delete_offered. simpl. rewrite Hu.
    simpl. apply String.eqb_refl.
  - unfold Social.posts_count. simpl. rewrite String.eqb_refl. reflexivity.
  - intros Hf. simpl. rewrite String.eqb_refl. simpl.
    apply (remove_key_absent Social.prompt_id). exact Hf.
Qed.

Lemma create_then_delete_witness :
  let u := Social.mkUser "u1" None None in
  let s := Social.setForm (Social.mkForm "Title" "Body" "Art")
             (Social.setUser (Some u) Social.initial) in
  Social.prompts
    (Social.handleDelete true 9 "1700" (Social.handleSubmit 1700 "iso" 1701 s))
  = [].
Proof.
  intros u s.
  assert (Ht : ~ whitespace_only (Social.form_title (Social.form s)))
    by (simpl; intros [H _]; vm_compute in H; discriminate).
  assert (Hc : ~ whitespace_only (Social.form_content (Social.form s)))
    by (simpl; intros [H _]; vm_compute in H; discriminate).
  apply (proj2 (proj2 (create_then_delete 1700 "iso" 1701 9 s u eq_refl Ht Hc))).
  constructor.
Defined.

(** ** Liking and commenting again *)

Lemma like_entity_twice id p :
  Social.like_entity id (Social.like_entity id p) = p.
Proof.
  unfold Social.like_entity.
  destruct (String.eqb (Social.prompt_id p) id) eqn:E; simpl; rewrite E; [|reflexivity].
  destruct p as [? ? ? ? ? ? ? n b ?]; simpl.
  destruct b; simpl; f_equal; lia.
Qed.

Lemma map_like_twice id l :
  List.map (Social.like_entity id) (List.map (Social.like_entity id) l) = l.
Proof.
  induction l as [|p l IH]; simpl; [reflexivity|].
  rewrite like_entity_twice, IH. reflexivity.
Qed.

(** X7. Two [handleLike] calls on the same id undo each other: the
    store is what it was before the two calls, and for a signed-in
    user so is the whole state. *)
Theorem handleLike_twice (t1 t2 : Z) (id : string) (s : Social.State) :
  let s2 := Social.handleLike t2 id (Social.handleLike t1 id s) in
  Social.prompts s2 = Social.prompts s
  /\ (Social.user s <> None -> s2 = s).
Proof.
  intros s2. subst s2. unfold Social.handleLike at 2.
  destruct (Social.user s) as [u|] eqn:Hu.
  - unfold Social.handleLike. simpl. rewrite Hu. simpl.
    split; [apply map_like_twice|]. intros _.
    destruct s; simpl in *. unfold Social.setPrompts. simpl.
    rewrite map_like_twice. subst. reflexivity.
  - unfold Social.handleLike. simpl. rewrite Hu. simpl.
    split; [reflexivity | intros H; contradiction].
Qed.

Lemma handleLike_twice_witness :
  let u := Social.mkUser "u1" None None in
  let a := Social.mkPrompt "1" "u2" "Ann" "t1" "c1" "Art" "d1" 3 true [] in
  let s := Social.mkState (Some u) [a] false "" "All" false [] Social.emptyForm ∅ in
  Social.handleLike 2 "1" (Social.handleLike 1 "1" s) = s.
Proof.
  intros u a s. apply (proj2 (handleLike_twice 1 2 "1" s)). discriminate.
Defined.

Lemma map_like_absent id l :
  Forall (fun p => Social.prompt_id p <> id) l ->
  List.map (Social.like_entity id) l = l.
Proof.
  induction 1 as [|p l Hp Hl IH]; simpl; [reflexivity|].
  rewrite like_entity_other by exact Hp. rewrite IH. reflexivity.
Qed.

Lemma map_comment_absent id c l :
  Forall (fun p => Social.prompt_id p <> id) l ->
  List.map (Social.comment_entity id c) l = l.
Proof.
  induction 1 as [|p l Hp Hl IH]; simpl; [reflexivity|].
  rewrite comment_entity_other by exact Hp. rewrite IH. reflexivity.
Qed.

(** X8. Acting on an id that no entity of the store carries changes no
    entity: [handleLike] then leaves the store as it is (for a
    signed-in user the whole state), and so does [handleCommentSubmit],
    which nevertheless empties the input of that id when the text was
    not blank, so the typed text is dropped without a comment being
    added. *)
Theorem absent_id_changes_nothing (id : string) (s : Social.State) :
  Forall (fun p => Social.prompt_id p <> id) (Social.prompts s) ->
  (forall now, Social.prompts (Social.handleLike now id s) = Social.prompts s)
  /\ (forall now u, Social.user s = Some u -> Social.handleLike now id s = s)
  /\ (forall now now_id iso,
        Social.prompts (Social.handleCommentSubmit now now_id iso id s)
        = Social.prompts s)
  /\ (forall now now_id iso u t,
        Social.user s = Some u -> Social.commentInputs s !! id = Some t ->
        ~ whitespace_only t ->
        Social.commentInputs (Social.handleCommentSubmit now now_id iso id s) !! id
        = Some "").
Proof.
  intros H. repeat split.
  - intros now. unfold Social.handleLike. destruct (Social.user s); simpl;
      [apply map_like_absent, H | reflexivity].
  - intros now u Hu. unfold Social.handleLike. rewrite Hu.
    destruct s; simpl in *. unfold Social.setPrompts. simpl.
    rewrite map_like_absent by exact H. subst. reflexivity.
  - intros now now_id iso.
    destruct (handleCommentSubmit_prompts now now_id iso id s) as [E | [c E]];
      rewrite E; [reflexivity | apply map_comment_absent, H].
  - intros now now_id iso u t Hu Ht Hn. unfold Social.handleCommentSubmit.
    rewrite Hu, Ht. simpl.
    destruct (negb (JS.truthy (JS.trim t))) eqn:E.
    + apply not_truthy_trim in E. contradiction.
    + simpl. apply lookup_insert_eq.
Qed.

Lemma absent_id_changes_nothing_witness :
  let u := Social.mkUser "u1" None None in
  let a := Social.mkPrompt "1" "u2" "Ann" "t1" "c1" "Art" "d1" 5 false [] in
  let s := Social.mkState (Some u) [a] false "" "All" false [] Social.emptyForm
             {[ "gone" := "hello" ]} in
  Social.handleLike 1 "gone" s = s
  /\ Social.prompts (Social.handleCommentSubmit 1 2 "iso" "gone" s) = [a]
  /\ Social.commentInputs (Social.handleCommentSubmit 1 2 "iso" "gone" s) !! "gone"
     = Some "".
Proof.
  intros u a s.
  assert (H : Forall (fun p => Social.prompt_id p <> "gone") (Social.prompts s))
    by (repeat constructor; simpl; discriminate).
  destruct (absent_id_changes_nothing "gone" s H) as (_ & H1 & H2 & H3).
  split; [exact (H1 1 u eq_refl)|]. split; [exact (H2 1 2 "iso")|].
  apply (H3 1 2 "iso" u "hello"); [reflexivity | reflexivity |].
  simpl. intros [H0 _]. vm_compute in H0. discriminate.
Defined.

Lemma handleCommentSubmit_blank now now_id iso id s u :
  Social.user s = Some u ->
  Social.blank_input (Social.commentInputs s !! id) = true ->
  Social.handleCommentSubmit now now_id iso id s = s.
Proof.
  intros Hu Hb. unfold Social.handleCommentSubmit. rewrite Hu, Hb. reflexivity.
Qed.

(** X9. A double submit never adds two comments: a second
    [handleCommentSubmit] on the same id right after a first one leaves
    the store as the first one left it, and for a signed-in user the
    whole state, because an accepted comment empties its input. *)
Theorem handleCommentSubmit_twice (t1 t2 n1 n2 : Z) (i1 i2 id : string)
    (s : Social.State) :
  let s1 := Social.handleCommentSubmit t1 n1 i1 id s in
  let s2 := Social.handleCommentSubmit t2 n2 i2 id s1 in
  Social.prompts s2 = Social.prompts s1
  /\ (Social.user s <> None -> s2 = s1).
Proof.
  intros s1 s2. subst s2.
  destruct (Social.user s) as [u|] eqn:Hu.
  - assert (Hu1 : Social.user s1 = Some u).
    { unfold s1, Social.handleCommentSubmit. rewrite Hu.
      destruct (Social.blank_input _); simpl; exact Hu. }
    assert (Hb1 : Social.blank_input (Social.commentInputs s1 !! id) = true).
    { unfold s1, Social.handleCommentSubmit. rewrite Hu.
      destruct (Social.blank_input (Social.commentInputs s !! id)) eqn:E;
        [exact E|]. simpl. rewrite lookup_insert_eq. reflexivity. }
    rewrite (handleCommentSubmit_blank _ _ _ _ s1 u Hu1 Hb1). auto.
  - assert (Hu1 : Social.user s1 = None)
      by (unfold s1, Social.handleCommentSubmit; rewrite Hu; simpl; exact Hu).
    split; [|intros H; contradiction].
    unfold Social.handleCommentSubmit at 1. rewrite Hu1. reflexivity.
Qed.

Lemma handleCommentSubmit_twice_witness :
  let u := Social.mkUser "u1" None None in
  let a := Social.mkPrompt "1" "u2" "Ann" "t1" "c1" "Art" "d1" 5 false [] in
  let s := Social.mkState (Some u) [a] false "" "All" false [] Social.emptyForm
             {[ "1" := "nice" ]} in
  Social.handleCommentSubmit 3 4 "j" "1" (Social.handleCommentSubmit 1 2 "i" "1" s)
  = Social.handleCommentSubmit 1 2 "i" "1" s.
Proof.
  intros u a s.
  apply (proj2 (handleCommentSubmit_twice 1 3 2 4 "i" "j" "1" s)). discriminate.
Defined.

(** ** More on the toast queue *)

Lemma toasts_remove_add id m k q :
  toasts_remove id (toasts_add id m k q) = toasts_remove id q.
Proof.
  unfold toasts_remove, toasts_add. rewrite List.filter_app. simpl.
  rewrite Z.eqb_refl. simpl. apply app_nil_r.
Qed.

Lemma toasts_remove_selects id q :
  selects (fun t => toast_id t <> id) q (toasts_remove id q).
Proof.
  apply filter_selects. intros t. rewrite negb_true_iff. apply Z.eqb_neq.
Qed.

Lemma toasts_remove_comm a b q :
  toasts_remove a (toasts_remove b q) = toasts_remove b (toasts_remove a q).
Proof.
  unfold toasts_remove. rewrite !filter_filter. apply List.filter_ext.
  intros t. apply andb_comm.
Qed.

(** X10. Dismissing the toast that was just added restores the state
    when no older toast carries the same id; two toasts added within
    the same millisecond share their id and are dismissed together.
    Both pages. *)
Theorem addToast_then_removeToast (now : Z) (m1 m2 : string) (k1 k2 : ToastKind) :
  (forall s : Social.State,
     (Forall (fun t => toast_id t <> now) (Social.toasts s) ->
      Social.removeToast now (Social.addToast now m1 k1 s) = s)
     /\ Social.removeToast now (Social.addToast now m2 k2 (Social.addToast now m1 k1 s))
        = Social.removeToast now s)
  /\ (forall s : Library.State,
        (Forall (fun t => toast_id t <> now) (Library.toasts s) ->
         Library.removeToast now (Library.addToast now m1 k1 s) = s)
        /\ Library.removeToast now (Library.addToast now m2 k2 (Library.addToast now m1 k1 s))
           = Library.removeToast now s).
Proof.
  split; intros s; split.
  - intros H. destruct s. unfold Social.removeToast, Social.addToast, Social.setToasts.
    simpl in *. rewrite toasts_remove_add, toasts_remove_absent by exact H. reflexivity.
  - unfold Social.removeToast, Social.addToast, Social.setToasts. simpl.
    rewrite !toasts_remove_add. reflexivity.
  - intros H. destruct s. unfold Library.removeToast, Library.addToast, Library.setToasts.
    simpl in *. rewrite toasts_remove_add, toasts_remove_absent by exact H. reflexivity.
  - unfold Library.removeToast, Library.addToast, Library.setToasts. simpl.
    rewrite !toasts_remove_add. reflexivity.
Qed.

Lemma addToast_then_removeToast_witness :
  let s := Social.addToast 7 "saved" success Social.initial in
  Social.removeToast 8 (Social.addToast 8 "copied" success s) = s.
Proof.
  intros s.
  apply (proj1 (proj1 (addToast_then_removeToast 8 "copied" "x" success error) s)).
  repeat constructor. simpl. lia.
Defined.

(** X11. [removeToast] takes out exactly the toasts carrying the id and
    keeps the others in their order, touches nothing but the queue,
    and two removals can be done in either order.  Both pages. *)
Theorem removeToast_keeps_others (a b : Z) :
  (forall s : Social.State,
     selects (fun t => toast_id t <> a) (Social.toasts s)
       (Social.toasts (Social.removeToast a s))
     /\ Social.prompts (Social.removeToast a s) = Social.prompts s
     /\ Social.removeToast a (Social.removeToast b s)
        = Social.removeToast b (Social.removeToast a s))
  /\ (forall s : Library.State,
        selects (fun t => toast_id t <> a) (Library.toasts s)
          (Library.toasts (Library.removeToast a s))
        /\ Library.prompts (Library.removeToast a s) = Library.prompts s
        /\ Library.removeToast a (Library.removeToast b s)
           = Library.removeToast b (Library.removeToast a s)).
Proof.
  split; intros s; (split; [apply toasts_remove_selects|]); (split; [reflexivity|]).
  - unfold Social.removeToast, Social.setToasts. simpl.
    rewrite toasts_remove_comm. reflexivity.
  - unfold Library.removeToast, Library.setToasts. simpl.
    rewrite toasts_remove_comm. reflexivity.
Qed.

(** ** Signing out *)

Lemma filter_none {A} (f : A -> bool) l :
  (forall x, f x = false) -> List.filter f l = [].
Proof.
  intros H. induction l as [|x l IH]; simpl; [reflexivity|]. rewrite H. exact IH.
Qed.

(** X12. After [handleLogout] the store is what it was, one [success]
    toast has been appended, no card carries a delete button any more,
    and creating, liking and commenting leave the store alone. *)
Theorem after_logout (now : Z) (s : Social.State) :
  let s' := Social.handleLogout now s in
  Social.user s' = None
  /\ Social.prompts s' = Social.prompts s
  /\ Social.toasts s'
     = (Social.toasts s ++ [mkToast now "Logged out successfully" success])%list
  /\ Social.delete_controls s' = []
  /\ (forall a i t, Social.prompts (Social.handleSubmit a i t s') = Social.prompts s)
  /\ (forall t id, Social.prompts (Social.handleLike t id s') = Social.prompts s)
  /\ (forall t n i id,
        Social.prompts (Social.handleCommentSubmit t n i id s') = Social.prompts s).
Proof.
  intros s'. subst s'. repeat split.
  unfold Social.delete_controls. destruct (Social.loading _); [reflexivity|].
  apply filter_none. intros p. reflexivity.
Qed.

(** ** The profile counters and the view *)

(** X13. With no filter active (empty search, tab "All") and the feed
    loaded, the counter of own posts in the profile header is the
    number of cards that carry a delete button. *)
Theorem posts_count_is_delete_controls (s : Social.State) (u : Social.User) :
  Social.user s = Some u -> Social.loading s = false ->
  Social.search s = "" -> Social.activeTab s = "All" ->
  Social.posts_count u s = length (Social.delete_controls s).
Proof.
  intros Hu Hl Hs Ht. unfold Social.posts_count, Social.delete_controls.
  rewrite Hl. unfold Social.filtered. rewrite Hs, Ht.
  rewrite (filter_all (fun p => matches "" "All" _ _ _))
    by (intros p _; apply matches_identity).
  f_equal. apply List.filter_ext. intros p. unfold Social.delete_offered.
  rewrite Hu. reflexivity.
Qed.

Lemma posts_count_is_delete_controls_witness :
  let u := Social.mkUser "u1" None None in
  let a := Social.mkPrompt "1" "other_user" "Ann" "t1" "c1" "Art" "d1" 5 false [] in
  let b := Social.mkPrompt "2" "u1" "Me" "t2" "c2" "Code" "d2" 0 false [] in
  let s := Social.mkState (Some u) [a; b] false "" "All" false [] Social.emptyForm ∅ in
  Social.posts_count u s = length (Social.delete_controls s).
Proof.
  intros u a b s.
  apply (posts_count_is_delete_controls s u); reflexivity.
Defined.

Lemma filter_map_commute {A} (f : A -> bool) (g : A -> A) l :
  (forall x, f (g x) = f x) ->
  List.filter f (List.map g l) = List.map g (List.filter f l).
Proof.
  intros H. induction l as [|x l IH]; simpl; [reflexivity|].
  rewrite H. destruct (f x); simpl; rewrite IH; reflexivity.
Qed.

Lemma filter_comm {A} (f g : A -> bool) l :
  List.filter f (List.filter g l) = List.filter g (List.filter f l).
Proof.
  rewrite !filter_filter. apply List.filter_ext. intros x. apply andb_comm.
Qed.

Lemma like_entity_text id p :
  Social.title (Social.like_entity id p) = Social.title p
  /\ Social.content (Social.like_entity id p) = Social.content p
  /\ Social.category (Social.like_entity id p) = Social.category p
  /\ Social.prompt_id (Social.like_entity id p) = Social.prompt_id p.
Proof. unfold Social.like_entity. destruct (String.eqb _ _); auto. Qed.

Lemma comment_entity_text id c p :
  Social.title (Social.comment_entity id c p) = Social.title p
  /\ Social.content (Social.comment_entity id c p) = Social.content p
  /\ Social.category (Social.comment_entity id c p) = Social.category p
  /\ Social.prompt_id (Social.comment_entity id c p) = Social.prompt_id p.
Proof. unfold Social.comment_entity. destruct (String.eqb _ _); auto. Qed.

Lemma handleCommentSubmit_view now now_id iso id s :
  Social.search (Social.handleCommentSubmit now now_id iso id s) = Social.search s
  /\ Social.activeTab (Social.handleCommentSubmit now now_id iso id s)
     = Social.activeTab s.
Proof.
  unfold Social.handleCommentSubmit. destruct (Social.user s); [|auto].
  destruct (Social.blank_input _); auto.
Qed.

(** X14. Liking and commenting never change which cards are shown, nor
    their order: the ids of the filtered view are the same before and
    after [handleLike] and [handleCommentSubmit], and for a signed-in
    user the view after [handleLike] is the old view with the like
    applied.  A confirmed [handleDelete] takes the entities with the
    id out of the view and changes nothing else of it. *)
Theorem view_follows_store (id : string) (s : Social.State) :
  (forall now,
     List.map Social.prompt_id (Social.filtered (Social.handleLike now id s))
     = List.map Social.prompt_id (Social.filtered s))
  /\ (forall now u,
        Social.user s = Some u ->
        Social.filtered (Social.handleLike now id s)
        = List.map (Social.like_entity id) (Social.filtered s))
  /\ (forall now now_id iso,
        List.map Social.prompt_id
          (Social.filtered (Social.handleCommentSubmit now now_id iso id s))
        = List.map Social.prompt_id (Social.filtered s))
  /\ (forall now,
        Social.filtered (Social.handleDelete true now id s)
        = List.filter (fun p => negb (String.eqb (Social.prompt_id p) id))
            (Social.filtered s)).
Proof.
  assert (L : forall now u, Social.user s = Some u ->
                Social.filtered (Social.handleLike now id s)
                = List.map (Social.like_entity id) (Social.filtered s)).
  { intros now u Hu. unfold Social.handleLike. rewrite Hu.
    unfold Social.filtered. simpl. apply filter_map_commute. intros p.
    destruct (like_entity_text id p) as (-> & -> & -> & _). reflexivity. }
  split; [|split; [exact L|split]].
  - intros now. destruct (Social.user s) as [u|] eqn:Hu.
    + rewrite (L now u eq_refl), List.map_map. apply List.map_ext. intros p.
      apply like_entity_text.
    + unfold Social.handleLike. rewrite Hu. reflexivity.
  - intros now now_id iso. unfold Social.filtered.
    destruct (handleCommentSubmit_view now now_id iso id s) as [-> ->].
    destruct (handleCommentSubmit_prompts now now_id iso id s) as [-> | [c ->]];
      [reflexivity|].
    rewrite filter_map_commute.
    + rewrite List.map_map. apply List.map_ext. intros p. apply comment_entity_text.
    + intros p. destruct (comment_entity_text id c p) as (-> & -> & -> & _). reflexivity.
  - intros now. unfold Social.filtered. simpl. apply filter_comm.
Qed.

Lemma view_follows_store_witness :
  let u := Social.mkUser "u1" None None in
  let a := Social.mkPrompt "1" "u2" "Ann" "t1" "c1" "Art" "d1" 5 false [] in
  let s := Social.mkState (Some u) [a] false "" "All" false [] Social.emptyForm ∅ in
  Social.filtered (Social.handleLike 3 "1" s)
  = [Social.mkPrompt "1" "u2" "Ann" "t1" "c1" "Art" "d1" 6 true []].
Proof.
  intros u a s.
  apply (proj1 (proj2 (view_follows_store "1" s)) 3 u eq_refl).
Defined.

(** ** Searching *)

Lemma string_app_assoc (a b c : string) : (a +:+ b) +:+ c = a +:+ b +:+ c.
Proof.
  induction a as [|x a IH]; [reflexivity | exact (f_equal (String x) IH)].
Qed.

Lemma includes_part hay a b c :
  JS.includes hay (a +:+ b +:+ c) = true -> JS.includes hay b = true.
Proof.
  rewrite !includes_spec. intros (pre & post & ->).
  exists (pre +:+ a), (c +:+ post). rewrite !string_app_assoc. reflexivity.
Qed.

Lemma matches_part a b c tab t x cat :
  matches (a +:+ b +:+ c) tab t x cat = true -> matches b tab t x cat = true.
Proof.
  unfold matches. rewrite !andb_true_iff, !toLowerCase_app.
  intros [H1 H2]. split; [|exact H2]. eapply includes_part, H1.
Qed.

Lemma matches_ci_eq a b tab t x cat :
  ci_eq a b -> matches a tab t x cat = matches b tab t x cat.
Proof. intros H. apply ci_eq_lower in H. unfold matches. rewrite H. reflexivity. Qed.

Lemma filter_refine {A} (f g : A -> bool) l :
  (forall x, f x = true -> g x = true) ->
  List.filter f l = List.filter f (List.filter g l).
Proof.
  intros H. rewrite filter_filter. apply List.filter_ext. intros x.
  destruct (f x) eqn:E; [rewrite (H x E); reflexivity | rewrite andb_false_r; reflexivity].
Qed.

(** X15. Narrowing the search never brings a card back: the view for
    a search text is obtained by filtering the view for any part of
    that text, so every entity shown for the longer text is shown for
    the part.  Both pages. *)
Theorem search_narrows (a b c : string) :
  (forall s : Social.State,
     let long := Social.setSearch (a +:+ b +:+ c) s in
     let short := Social.setSearch b s in
     Social.filtered long
     = List.filter
         (fun p => matches (a +:+ b +:+ c) (Social.activeTab s)
                     (Social.title p) (Social.content p) (Social.category p))
         (Social.filtered short)
     /\ forall p, In p (Social.filtered long) -> In p (Social.filtered short))
  /\ (forall s : Library.State,
        let long := Library.setSearch (a +:+ b +:+ c) s in
        let short := Library.setSearch b s in
        Library.filtered long
        = List.filter
            (fun p => matches (a +:+ b +:+ c) (Library.activeTab s)
                        (Library.title p) (Library.content p) (Library.category p))
            (Library.filtered short)
        /\ forall p, In p (Library.filtered long) -> In p (Library.filtered short)).
Proof.
  split; intros s long short; subst long short.
  - assert (E : Social.filtered (Social.setSearch (a +:+ b +:+ c) s)
                = List.filter
                    (fun p => matches (a +:+ b +:+ c) (Social.activeTab s)
                                (Social.title p) (Social.content p) (Social.category p))
                    (Social.filtered (Social.setSearch b s))).
    { unfold Social.filtered. simpl. apply filter_refine.
      intros p. apply matches_part. }
    split; [exact E|]. intros p. rewrite E, filter_In. tauto.
  - assert (E : Library.filtered (Library.setSearch (a +:+ b +:+ c) s)
                = List.filter
                    (fun p => matches (a +:+ b +:+ c) (Library.activeTab s)
                                (Library.title p) (Library.content p) (Library.category p))
                    (Library.filtered (Library.setSearch b s))).
    { unfold Library.filtered. simpl. apply filter_refine.
      intros p. apply matches_part. }
    split; [exact E|]. intros p. rewrite E, filter_In. tauto.
Qed.

Lemma search_narrows_witness :
  let a := Social.mkPrompt "1" "u2" "Ann" "Python Debugger" "c1" "Code" "d1" 5 false [] in
  let s := Social.setPrompts (fun _ => [a]) Social.initial in
  In a (Social.filtered (Social.setSearch "bug" s)).
Proof.
  intros a s.
  apply (proj2 (proj1 (search_narrows "de" "bug" "ger") s) a).
  vm_compute. tauto.
Defined.

(** X16. The search does not look at letter case: two search texts
    that differ in case only give the same view.  Both pages. *)
Theorem search_ignores_case (a b : string) :
  ci_eq a b ->
  (forall s : Social.State,
     Social.filtered (Social.setSearch a s) = Social.filtered (Social.setSearch b s))
  /\ (forall s : Library.State,
        Library.filtered (Library.setSearch a s) = Library.filtered (Library.setSearch b s)).
Proof.
  intros H. split; intros s.
  - unfold Social.filtered. simpl. apply List.filter_ext. intros p.
    apply matches_ci_eq, H.
  - unfold Library.filtered. simpl. apply List.filter_ext. intros p.
    apply matches_ci_eq, H.
Qed.

Lemma search_ignores_case_witness :
  let a := Social.mkPrompt "1" "u2" "Ann" "Python Debugger" "c1" "Code" "d1" 5 false [] in
  let s := Social.setPrompts (fun _ => [a]) Social.initial in
  Social.filtered (Social.setSearch "PYTHON" s)
  = Social.filtered (Social.setSearch "python" s).
Proof.
  intros a s.
  apply (proj1 (search_ignores_case "PYTHON" "python"
                  ltac:(repeat constructor)) s).
Defined.

(** ** Loading *)

Section SortByDate.

Context {A : Type} (getTime : string -> option Z) (date : A -> string).
Context (cmp : A -> A -> Z).
Hypothesis cmp_dates :
  forall a b,
    cmp a b = match getTime (date b), getTime (date a) with
              | Some tb, Some ta => tb - ta
              | _, _ => 0
              end.

Lemma sort_insert_sorted x l :
  is_Some (getTime (date x)) ->
  Forall (fun a => is_Some (getTime (date a))) l ->
  StronglySorted (fun a b => not_older getTime (date a) (date b)) l ->
  StronglySorted (fun a b => not_older getTime (date a) (date b))
    (JS.sort_insert cmp x l).
Proof.
  intros [tx Hx] Hl Hs. induction Hs as [|y l Hs IH Hy]; simpl.
  - repeat constructor.
  - apply Forall_cons in Hl as [[ty Hty] Hl].
    rewrite cmp_dates, Hty, Hx.
    destruct (Z.ltb_spec 0 (ty - tx)).
    + constructor; [apply IH, Hl|].
      apply sort_insert_Forall; [|exact Hy].
      unfold not_older. rewrite Hty, Hx. lia.
    + constructor; [constructor; assumption|].
      constructor; [unfold not_older; rewrite Hty, Hx; lia|].
      eapply Forall_impl; [exact Hy|]. intros z. unfold not_older.
      rewrite Hty, Hx. destruct (getTime (date z)); [lia | tauto].
Qed.

Lemma sort_sorted l :
  Forall (fun a => is_Some (getTime (date a))) l ->
  StronglySorted (fun a b => not_older getTime (date a) (date b)) (JS.sort cmp l).
Proof.
  induction 1 as [|x l Hx Hl IH]; simpl; [constructor|].
  apply sort_insert_sorted; [exact Hx | apply sort_Forall, Hl | exact IH].
Qed.

Lemma sort_presorted l :
  Sorted (fun a b => keeps_place getTime (date a) (date b)) l ->
  JS.sort cmp l = l.
Proof.
  induction 1 as [|x l Hs IH Hh]; simpl; [reflexivity|].
  rewrite IH. destruct Hh as [|y l Hxy]; simpl; [reflexivity|].
  rewrite cmp_dates. unfold keeps_place in Hxy.
  destruct (getTime (date y)), (getTime (date x)); try reflexivity.
  destruct (Z.ltb_spec 0 (z - z0)); [lia | reflexivity].
Qed.

End SortByDate.

Lemma Sorted_map {A B} (R : B -> B -> Prop) (f : A -> B) l :
  Sorted (fun a b => R (f a) (f b)) l -> Sorted R (List.map f l).
Proof.
  induction 1 as [|x l Hs IH Hh]; simpl; constructor; [exact IH|].
  destruct Hh; simpl; constructor. assumption.
Qed.

(** X17. A list response that [loadPrompts] accepts replaces the store
    by its rows, each exactly once: on the social page as their
    socialized form, with every [liked_by_user] reset to [false], on
    the library page as they are; loading is over and no toast is
    added.  When every creation date parses the store is in feed
    order, each entity not older than all that follow it. *)
Theorem loadPrompts_sorts (getTime : string -> option Z) :
  (forall u i1 i2 data (s : Social.State),
     let s' := Social.loadPrompts_settle getTime u i1 i2 (Social.LoadOk data) s in
     Permutation (List.map Social.socialize data) (Social.prompts s')
     /\ Forall (fun p => Social.liked_by_user p = false) (Social.prompts s')
     /\ Social.loading s' = false
     /\ Social.toasts s' = Social.toasts s
     /\ (Forall (fun r => is_Some (getTime (Social.raw_created_at r))) data ->
         StronglySorted
           (fun a b => not_older getTime (Social.created_at a) (Social.created_at b))
           (Social.prompts s')))
  /\ (forall silent now data (s : Library.State),
        let s' := Library.loadPrompts_settle getTime silent now (Library.LoadOk data) s in
        Permutation data (Library.prompts s')
        /\ Library.toasts s' = Library.toasts s
        /\ (Forall (fun p => is_Some (getTime (Library.created_at p))) data ->
            StronglySorted
              (fun a b => not_older getTime (Library.created_at a) (Library.created_at b))
              (Library.prompts s'))).
Proof.
  split.
  - intros u i1 i2 data s s'. subst s'. simpl. repeat split.
    + apply sort_Permutation.
    + apply sort_Forall. apply Forall_forall. intros p Hp.
      apply list_elem_of_In, in_map_iff in Hp as (r & <- & _). reflexivity.
    + intros H. apply (sort_sorted getTime Social.created_at); [reflexivity|].
      induction H; simpl; constructor; assumption.
  - intros silent now data s s'. subst s'. unfold Library.loadPrompts_settle.
    destruct silent; simpl; repeat split; try apply sort_Permutation;
      intros H; apply (sort_sorted getTime Library.created_at); auto.
Qed.

Lemma loadPrompts_sorts_witness :
  let getTime := fun d : string => if String.eqb d "old" then Some 1 else Some 2 in
  let a := Library.mkPrompt "1" "t1" "c1" "Art" "old" in
  let b := Library.mkPrompt "2" "t2" "c2" "Code" "new" in
  StronglySorted
    (fun x y => not_older getTime (Library.created_at x) (Library.created_at y))
    (Library.prompts
       (Library.loadPrompts_settle getTime false 0 (Library.LoadOk [a; b])
          Library.initial)).
Proof.
  intros getTime a b.
  apply (proj2 (loadPrompts_sorts getTime) false 0 [a; b] Library.initial).
  repeat constructor; simpl; eauto.
Defined.

Lemma Sorted_weaken {A} (R R' : A -> A -> Prop) l :
  (forall a b, R a b -> R' a b) -> Sorted R l -> Sorted R' l.
Proof.
  intros H. induction 1 as [|x l Hs IH Hh]; constructor; [exact IH|].
  destruct Hh; constructor. auto.
Qed.

Lemma not_older_keeps_place getTime a b :
  not_older getTime a b -> keeps_place getTime a b.
Proof.
  unfold not_older, keeps_place.
  destruct (getTime a), (getTime b); tauto.
Qed.

(** X18. A list response that already is in feed order (every date
    parses and no row is newer than the row before it, as the list
    route orders them) is stored row by row in the order it came in:
    the sort of [loadPrompts] moves nothing, rows of equal date
    included. *)
Theorem loadPrompts_keeps_feed_order (getTime : string -> option Z) :
  (forall u i1 i2 data (s : Social.State),
     Sorted (fun a b => not_older getTime (Social.raw_created_at a)
                          (Social.raw_created_at b)) data ->
     Social.prompts (Social.loadPrompts_settle getTime u i1 i2 (Social.LoadOk data) s)
     = List.map Social.socialize data)
  /\ (forall silent now data (s : Library.State),
        Sorted (fun a b => not_older getTime (Library.created_at a)
                             (Library.created_at b)) data ->
        Library.prompts
          (Library.loadPrompts_settle getTime silent now (Library.LoadOk data) s)
        = data).
Proof.
  split.
  - intros u i1 i2 data s H. simpl.
    apply (sort_presorted getTime Social.created_at); [reflexivity|].
    apply (Sorted_map
             (fun a b => keeps_place getTime (Social.created_at a) (Social.created_at b))
             Social.socialize).
    eapply Sorted_weaken; [|exact H].
    intros a b Hab. apply not_older_keeps_place. exact Hab.
  - intros silent now data s H.
    assert (H' : Sorted (fun a b => keeps_place getTime (Library.created_at a)
                                      (Library.created_at b)) data).
    { eapply Sorted_weaken; [|exact H].
      intros a b Hab. apply not_older_keeps_place. exact Hab. }
    unfold Library.loadPrompts_settle.
    destruct silent; simpl;
      apply (sort_presorted getTime Library.created_at); auto.
Qed.

Lemma loadPrompts_keeps_feed_order_witness :
  let getTime := fun d : string => if String.eqb d "old" then Some 1 else Some 2 in
  let a := Library.mkPrompt "1" "t1" "c1" "Art" "new" in
  let b := Library.mkPrompt "2" "t2" "c2" "Code" "old" in
  Library.prompts
    (Library.loadPrompts_settle getTime true 0 (Library.LoadOk [a; b]) Library.initial)
  = [a; b].
Proof.
  intros getTime a b.
  apply (proj2 (loadPrompts_keeps_feed_order getTime) true 0 [a; b] Library.initial).
  constructor; [constructor; constructor|].
  constructor. unfold not_older. simpl. lia.
Defined.

(** ** Author names along the runs of the page *)

Lemma like_entity_author id p :
  Social.author_name (Social.like_entity id p) = Social.author_name p.
Proof. unfold Social.like_entity. destruct (String.eqb _ _); reflexivity. Qed.

Lemma comment_entity_author id c p :
  Social.author_name (Social.comment_entity id c p) = Social.author_name p.
Proof. unfold Social.comment_entity. destruct (String.eqb _ _); reflexivity. Qed.

Lemma step_author_named getTime s e :
  Forall (fun p => Social.author_name p <> "") (Social.prompts s) ->
  Forall (fun p => Social.author_name p <> "")
         (Social.prompts (Social.step getTime s e)).
Proof.
  intros Hs. destruct e; simpl; try exact Hs.
  - destruct res as [data|]; simpl.
    + apply sort_Forall. apply Forall_forall. intros p Hp.
      apply list_elem_of_In, in_map_iff in Hp as (r & <- & _). simpl.
      apply or_else_not_empty. discriminate.
    + constructor; [simpl; discriminate|].
      constructor; [|constructor]. simpl. apply or_else_not_empty. discriminate.
  - unfold Social.handleSubmit. destruct (Social.user s); [|exact Hs].
    destruct (_ || _); [exact Hs|]. simpl.
    constructor; [|exact Hs]. simpl. apply or_else_not_empty. discriminate.
  - unfold Social.handleDelete. destruct confirmed; simpl; [|exact Hs].
    apply filter_Forall, Hs.
  - unfold Social.handleLike. destruct (Social.user s); simpl; [|exact Hs].
    apply map_Forall; [|exact Hs]. intros p. rewrite like_entity_author. auto.
  - unfold Social.handleCommentSubmit. destruct (Social.user s); [|exact Hs].
    destruct (Social.blank_input _); [exact Hs|]. simpl.
    apply map_Forall; [|exact Hs]. intros p. rewrite comment_entity_author. auto.
Qed.

(** X19. Whatever the page does from its initial state, and whatever
    the list responses hold, every entity of the store has an author
    name that is not empty (the card shows its first letter): rows and
    new posts without a name get "Anonymous", the fallback entry of a
    user without a name gets "You". *)
Theorem author_names_never_empty (getTime : string -> option Z)
    (es : list Social.Event) :
  Forall (fun p => Social.author_name p <> "")
         (Social.prompts (Social.run getTime es)).
Proof.
  unfold Social.run.
  assert (H : Forall (fun p => Social.author_name p <> "")
                     (Social.prompts Social.initial)) by constructor.
  revert H. generalize Social.initial.
  induction es as [|e es IH]; intros s Hs; simpl; [exact Hs|].
  apply IH, step_author_named, Hs.
Qed.

(** ** A delete that fails on the library page *)

(** X20. On the library page a delete is not undone locally: after a
    confirmed [handleDelete] whose request is rejected the store still
    lacks the entities with that id, an [error] toast has been
    appended, and if the silent reload that follows throws as well the
    store stays that way, with a second [error] toast. *)
Theorem library_failed_delete (getTime : string -> option Z) (id : string)
    (now1 now2 : Z) (s : Library.State) :
  let s1 := Library.handleDelete true id s in
  let s2 := Library.handleDelete_settled Library.Rejected now1 s1 in
  let s3 := Library.loadPrompts_settle getTime true now2 Library.LoadThrows
              (Library.loadPrompts_begin true s2) in
  Library.prompts s1
  = List.filter (fun p => negb (String.eqb (Library.prompt_id p) id)) (Library.prompts s)
  /\ Forall (fun p => Library.prompt_id p <> id) (Library.prompts s3)
  /\ Library.prompts s2 = Library.prompts s1
  /\ Library.prompts s3 = Library.prompts s1
  /\ Library.loading s3 = Library.loading s
  /\ Library.toasts s3
     = (Library.toasts s ++ [mkToast now1 "Could not delete prompt" error;
                             mkToast now2 "Failed to load prompts" error])%list.
Proof.
  intros s1 s2 s3. subst s1 s2 s3. simpl. repeat split.
  - apply Forall_forall. intros p Hp. apply list_elem_of_In, filter_In in Hp as [_ Hp].
    apply negb_true_iff, String.eqb_neq in Hp. exact Hp.
  - unfold toasts_add. rewrite <- app_assoc. reflexivity.
Qed.

(** ** Tabs after a new post *)

(** X21. The category of a new post becomes the first tab after
    "All": after an accepted [handleSubmit] with a category that is
    not empty the tabs are "All", that category, then the former tabs
    without it; with an empty category the tabs do not change. *)
Theorem categories_after_create (now_id : Z) (iso : string) (now : Z)
    (s : Social.State) (u : Social.User) :
  Social.user s = Some u ->
  ~ whitespace_only (Social.form_title (Social.form s)) ->
  ~ whitespace_only (Social.form_content (Social.form s)) ->
  let c := Social.form_category (Social.form s) in
  let s' := Social.handleSubmit now_id iso now s in
  (c <> "" ->
   Social.categories s'
   = "All" :: c :: List.filter (fun y => negb (String.eqb y c))
                     (tl (Social.categories s)))
  /\ (c = "" -> Social.categories s' = Social.categories s).
Proof.
  intros Hu Ht Hc c s'. subst s'. unfold Social.handleSubmit.
  rewrite Hu, (not_blank_form _ _ Ht Hc).
  unfold Social.categories, categories_of. simpl List.map. simpl List.filter.
  fold c. split; intros H.
  - apply truthy_spec in H. rewrite H. rewrite set_from_cons. reflexivity.
  - rewrite H. reflexivity.
Qed.

Lemma categories_after_create_witness :
  let u := Social.mkUser "u1" None None in
  let a := Social.mkPrompt "1" "u2" "Ann" "t1" "c1" "Art" "d1" 5 false [] in
  let b := Social.mkPrompt "2" "u2" "Ann" "t2" "c2" "Code" "d2" 5 false [] in
  let s := Social.mkState (Some u) [a; b] false "" "All" false []
             (Social.mkForm "Title" "Body" "Code") ∅ in
  Social.categories (Social.handleSubmit 1700 "iso" 1701 s) = ["All"; "Code"; "Art"].
Proof.
  intros u a b s.
  assert (Ht : ~ whitespace_only (Social.form_title (Social.form s)))
    by (simpl; intros [H _]; vm_compute in H; discriminate).
  assert (Hc : ~ whitespace_only (Social.form_content (Social.form s)))
    by (simpl; intros [H _]; vm_compute in H; discriminate).
  apply (proj1 (categories_after_create 1700 "iso" 1701 s u eq_refl Ht Hc)).
  discriminate.
Defined.

(** ** The counter of received likes *)

Section LikesReceived.

Variable u : Social.User.

Local Abbreviation own p := (String.eqb (Social.author_id p) (Social.user_id u)).
Local Abbreviation received l :=
  (fold_left (fun acc p => if own p then acc + Social.likes p else acc) l 0).

Lemma received_acc l :
  forall acc,
    fold_left (fun acc p => if own p then acc + Social.likes p else acc) l acc
    = acc + received l.
Proof.
  induction l as [|p l IH]; intros acc; simpl; [lia|].
  rewrite IH, (IH (if own p then _ else _)). destruct (own p); lia.
Qed.

Lemma received_cons p l :
  received (p :: l) = (if own p then Social.likes p else 0) + received l.
Proof. simpl. rewrite received_acc. destruct (own p); lia. Qed.

Lemma received_map_comment id c l :
  received (List.map (Social.comment_entity id c) l) = received l.
Proof.
  induction l as [|p l IH]; [reflexivity|].
  simpl List.map. rewrite !received_cons, IH.
  unfold Social.comment_entity. destruct (String.eqb (Social.prompt_id p) id); reflexivity.
Qed.

Lemma received_map_like_others id l :
  Forall (fun p => Social.prompt_id p = id -> Social.author_id p <> Social.user_id u) l ->
  received (List.map (Social.like_entity id) l) = received l.
Proof.
  induction 1 as [|p l Hp Hl IH]; [reflexivity|].
  simpl List.map. rewrite !received_cons, IH. f_equal.
  unfold Social.like_entity.
  destruct (String.eqb (Social.prompt_id p) id) eqn:E; [|reflexivity].
  apply String.eqb_eq in E. apply Hp, String.eqb_neq in E. simpl. rewrite E.
  reflexivity.
Qed.

Lemma received_map_like_own id l i p :
  NoDup (List.map Social.prompt_id l) ->
  l !! i = Some p -> Social.prompt_id p = id ->
  Social.author_id p = Social.user_id u ->
  received (List.map (Social.like_entity id) l)
  = received l + (if Social.liked_by_user p then -1 else 1).
Proof.
  revert i. induction l as [|x l IH]; intros i Hnd Hi Hid Hau; [discriminate|].
  simpl in Hnd. apply NoDup_cons in Hnd as [Hx Hnd].
  simpl List.map. rewrite !received_cons.
  destruct i as [|i]; simpl in Hi.
  - injection Hi as ->.
    rewrite map_like_absent.
    + rewrite (like_entity_target id p Hid). simpl.
      apply String.eqb_eq in Hau. rewrite Hau.
      destruct (Social.liked_by_user p); lia.
    + apply Forall_forall. intros q Hq Hq'. apply Hx. rewrite Hid, <- Hq'.
      apply list_elem_of_In, in_map, list_elem_of_In, Hq.
  - rewrite (IH i Hnd Hi Hid Hau).
    rewrite like_entity_other; [lia|].
    intros Hx'. apply Hx. rewrite Hx', <- Hid.
    apply list_elem_of_In, in_map, list_elem_of_In.
    eapply list_elem_of_lookup_2, Hi.
Qed.

(** X22. The counter of received likes follows the likes of the
    user's own posts only.  A new post and a comment leave it as it
    is; so does a like on an id carried by posts of other authors
    only; and, in a store whose ids are all different, a like on an
    own post moves it by one, up when the post was not liked and down
    when it was. *)
Theorem likes_received_follows_own_posts (s : Social.State) :
  Social.user s = Some u ->
  (forall now_id iso now,
     Social.likes_received u (Social.handleSubmit now_id iso now s)
     = Social.likes_received u s)
  /\ (forall now now_id iso id,
        Social.likes_received u (Social.handleCommentSubmit now now_id iso id s)
        = Social.likes_received u s
        /\ Social.posts_count u (Social.handleCommentSubmit now now_id iso id s)
           = Social.posts_count u s)
  /\ (forall now id,
        Forall (fun p => Social.prompt_id p = id ->
                         Social.author_id p <> Social.user_id u) (Social.prompts s) ->
        Social.likes_received u (Social.handleLike now id s)
        = Social.likes_received u s)
  /\ (forall now id i p,
        NoDup (List.map Social.prompt_id (Social.prompts s)) ->
        Social.prompts s !! i = Some p -> Social.prompt_id p = id ->
        Social.author_id p = Social.user_id u ->
        Social.likes_received u (Social.handleLike now id s)
        = Social.likes_received u s + (if Social.liked_by_user p then -1 else 1)).
Proof.
  intros Hu. unfold Social.likes_received, Social.posts_count. repeat split.
  - intros now_id iso now. unfold Social.handleSubmit. rewrite Hu.
    destruct (_ || _); [reflexivity|]. simpl Social.prompts.
    rewrite received_cons. simpl. rewrite String.eqb_refl. lia.
  - destruct (handleCommentSubmit_prompts now now_id iso id s) as [-> | [c ->]];
      [reflexivity | apply received_map_comment].
  - destruct (handleCommentSubmit_prompts now now_id iso id s) as [-> | [c ->]];
      [reflexivity|].
    rewrite filter_map_commute; [apply length_map|].
    intros p. unfold Social.comment_entity.
    destruct (String.eqb (Social.prompt_id p) id); reflexivity.
  - intros now id H. unfold Social.handleLike. rewrite Hu. simpl.
    apply received_map_like_others, H.
  - intros now id i p Hnd Hi Hid Hau. unfold Social.handleLike. rewrite Hu. simpl.
    apply (received_map_like_own id _ i p); assumption.
Qed.

End LikesReceived.

Lemma likes_received_follows_own_posts_witness :
  let u := Social.mkUser "u1" None None in
  let a := Social.mkPrompt "1" "other_user" "Ann" "t1" "c1" "Art" "d1" 5 false [] in
  let b := Social.mkPrompt "2" "u1" "Me" "t2" "c2" "Code" "d2" 7 false [] in
  let s := Social.mkState (Some u) [a; b] false "" "All" false [] Social.emptyForm ∅ in
  Social.likes_received u (Social.handleLike 3 "2" s) = 8
  /\ Social.likes_received u (Social.handleLike 3 "1" s) = 7.
Proof.
  intros u a b s.
  destruct (likes_received_follows_own_posts u s eq_refl) as (_ & _ & H1 & H2).
  split.
  - apply (H2 3 "2" 1%nat b); try reflexivity.
    apply (bool_decide_unpack _). vm_compute. exact I.
  - apply (H1 3 "1"). repeat constructor; simpl; intros; discriminate.
Defined.
